(** * rxdb-hooks: the pagination state machine of [useRxQuery]

    A shallow embedding of [useRxQuery] (reducer, pagination mode, facade
    callbacks, the two subscription effects), of the older [useRxData] hook
    (reducer, callbacks, query) and of the comparators of the test helpers,
    with the properties of the pagination specification and further
    properties of the code stated over them.

    Numbers.  The page size, the page a consumer asks for and everything
    computed from them by addition ([limit]) are integers, embedded as [Z];
    on integers below 2^53 JavaScript's arithmetic is exact, and so is
    [Math.ceil(n / d)].  Two expressions of the hook leave the integers:
    [state.page + 1] when [page] is [undefined] (NaN) and
    [Math.ceil(docs.length / pageSize)] when [pageSize] is 0 (Infinity or
    NaN).  The fields they are stored in, [page] and [pageCount], are
    therefore [num]: an integer, an infinity or NaN, with JavaScript's
    arithmetic and comparisons on them.

    Effects.  The hook relies on two contracts that are not its own code:
    React runs the cleanup an effect returned before it runs the effect
    again and when the component unmounts, and runs an effect again only
    when one of its dependencies changed; and a subscription that was
    unsubscribed calls its callback no more.  [commit], [unmount] and
    [emit] below are these contracts; the bodies of the effects and of the
    callbacks are the hook's. *)

From Stdlib Require Import ZArith List String Bool Lia.
Import ListNotations.

#[local] Open Scope Z_scope.

(** ** JavaScript numbers on the integer fragment *)

Inductive num : Type :=
| Int (z : Z)
| PInf
| NInf
| NaN.

(** [ToNumber] on a value that is [undefined] or a number. *)
Definition to_number (v : option num) : num :=
  match v with
  | Some n => n
  | None => NaN
  end.

(** [ToBoolean]: 0 and NaN are falsy. *)
Definition num_truthy (n : num) : bool :=
  match n with
  | Int z => negb (z =? 0)
  | PInf | NInf => true
  | NaN => false
  end.

Definition truthy (v : option num) : bool :=
  match v with
  | Some n => num_truthy n
  | None => false
  end.

Definition num_add (a b : num) : num :=
  match a, b with
  | NaN, _ | _, NaN => NaN
  | Int x, Int y => Int (x + y)
  | PInf, NInf | NInf, PInf => NaN
  | PInf, _ | _, PInf => PInf
  | NInf, _ | _, NInf => NInf
  end.

Definition num_neg (a : num) : num :=
  match a with
  | Int x => Int (- x)
  | PInf => NInf
  | NInf => PInf
  | NaN => NaN
  end.

Definition num_sub (a b : num) : num := num_add a (num_neg b).

(** The infinity of the given sign. *)
Definition num_inf (positive : bool) : num := if positive then PInf else NInf.

Definition num_mul (a b : num) : num :=
  match a, b with
  | NaN, _ | _, NaN => NaN
  | Int x, Int y => Int (x * y)
  | Int x, PInf | PInf, Int x =>
      if x =? 0 then NaN else num_inf (0 <? x)
  | Int x, NInf | NInf, Int x =>
      if x =? 0 then NaN else num_inf (x <? 0)
  | PInf, PInf | NInf, NInf => PInf
  | PInf, NInf | NInf, PInf => NInf
  end.

(** [a < b]; every comparison with NaN is false. *)
Definition num_ltb (a b : num) : bool :=
  match a, b with
  | NaN, _ | _, NaN => false
  | Int x, Int y => x <? y
  | NInf, NInf | PInf, _ | _, NInf => false
  | NInf, _ | _, PInf => true
  end.

(** [a > b] *)
Definition num_gtb (a b : num) : bool := num_ltb b a.

(** [Object.is] on two numbers, which React compares dependencies with:
    NaN is the same value as NaN. *)
Definition num_same (a b : num) : bool :=
  match a, b with
  | Int x, Int y => x =? y
  | PInf, PInf | NInf, NInf | NaN, NaN => true
  | _, _ => false
  end.

Definition value_same (a b : option num) : bool :=
  match a, b with
  | Some x, Some y => num_same x y
  | None, None => true
  | _, _ => false
  end.

(** [Math.ceil(n / d)] for integers [n] and [d]: the ceiling of the
    quotient, and what the division by zero gives. *)
Definition ceil_div (n d : Z) : num :=
  if d =? 0 then
    if n =? 0 then NaN else num_inf (0 <? n)
  else Int (- ((- n) / d)).

(** ** Documents and emissions *)

Section Hook.

(** The document type [T] of the hook. *)
Context {T : Type}.

(** An element of [result]: an [RxDocument<T>] or, with the [json] option,
    the plain object [doc.toJSON()] gives. *)
Inductive Item : Type :=
| RxDoc (d : T)
| Plain (d : T).

Definition toJSON (i : Item) : Item :=
  match i with
  | RxDoc d => Plain d
  | Plain d => Plain d
  end.

(** What a query's stream pushes: [RxDocument<T>[] | RxDocument<T>]. *)
Inductive Emission : Type :=
| Documents (l : list T)
| Document (d : T).

(** [Array.isArray(documents) ? documents : [documents]] *)
Definition normalize (e : Emission) : list Item :=
  match e with
  | Documents l => map RxDoc l
  | Document d => [RxDoc d]
  end.

(** ** State and actions *)

Inductive PaginationMode : Type :=
| Traditional
| InfiniteScroll
| NoPagination. (* [PaginationMode.None] *)

Record RxState : Type := mkRxState {
  result : list Item;
  isFetching : bool;
  isExhausted : bool;
  limit : Z;
  page : option num;
  pageCount : num
}.

Inductive AnyAction : Type :=
| Reset (pageSize : Z)
| FetchMore (pageSize : Z)
| FetchPage (page : Z)
| CountPages (pageCount : num)
| FetchSuccess (docs : list Item)
| QueryChanged.

(** [docs.length] *)
Definition len (docs : list Item) : Z := Z.of_nat (List.length docs).

Definition reducer (state : RxState) (action : AnyAction) : RxState :=
  match action with
  | Reset pageSize =>
      {| result := [];
         isFetching := true;
         isExhausted := isExhausted state;
         limit := pageSize;
         page := page state;
         pageCount := pageCount state |}
  | FetchMore pageSize =>
      {| result := result state;
         isFetching := true;
         isExhausted := isExhausted state;
         limit := limit state + pageSize;
         page := Some (num_add (to_number (page state)) (Int 1));
         pageCount := pageCount state |}
  | FetchPage p =>
      {| result := result state;
         isFetching := true;
         isExhausted := isExhausted state;
         limit := limit state;
         page := Some (Int p);
         pageCount := pageCount state |}
  | CountPages c =>
      {| result := result state;
         isFetching := isFetching state;
         isExhausted := isExhausted state;
         limit := limit state;
         page := page state;
         pageCount := c |}
  | FetchSuccess docs =>
      {| result := docs;
         isFetching := false;
         isExhausted := (limit state =? 0) || (len docs <? limit state);
         limit := limit state;
         page := page state;
         pageCount := pageCount state |}
  | QueryChanged =>
      {| result := result state;
         isFetching := true;
         isExhausted := isExhausted state;
         limit := limit state;
         page := page state;
         pageCount := pageCount state |}
  end.

(** ** Options and pagination mode *)

Inductive SortOrder : Type := asc | desc.

Record UseRxQueryOptions : Type := mkOptions {
  pageSize : option Z;
  startingPage : option Z;
  sortBy : option string;
  sortOrder : option SortOrder;
  json : option bool
}.

(** [!n] is false for a number that is defined and not 0. *)
Definition given (n : option Z) : bool :=
  match n with
  | Some z => negb (z =? 0)
  | None => false
  end.

Definition getPaginationMode (options : UseRxQueryOptions) : PaginationMode :=
  if negb (given (pageSize options)) then NoPagination
  else if negb (given (startingPage options)) then InfiniteScroll
  else Traditional.

Definition PaginationMode_eqb (a b : PaginationMode) : bool :=
  match a, b with
  | Traditional, Traditional
  | InfiniteScroll, InfiniteScroll
  | NoPagination, NoPagination => true
  | _, _ => false
  end.

(** ** Queries

    An [RxQuery] as the hook uses it: what it selects, and the bounds and
    the order that [skip], [limit] and [sort] set on a copy of it. *)

Record RxQuery : Type := mkRxQuery {
  selector : string;
  q_skip : option num;
  q_limit : option Z;
  q_sort : option (string * SortOrder)
}.

Definition skip (n : num) (q : RxQuery) : RxQuery :=
  {| selector := selector q; q_skip := Some n;
     q_limit := q_limit q; q_sort := q_sort q |}.

Definition limit_ (n : Z) (q : RxQuery) : RxQuery :=
  {| selector := selector q; q_skip := q_skip q;
     q_limit := Some n; q_sort := q_sort q |}.

Definition sort (by_ : string) (o : SortOrder) (q : RxQuery) : RxQuery :=
  {| selector := selector q; q_skip := q_skip q;
     q_limit := q_limit q; q_sort := Some (by_, o) |}.

(** ** The hook's arguments, fixed for one mount

    [query] is [None] when [isRxQuery(query)] is false. *)

Record Props : Type := mkProps {
  query : option RxQuery;
  options : UseRxQueryOptions
}.

Section Mounted.

Variable props : Props.

(** The destructured options, with their defaults. *)
Definition pageSize_ : Z :=
  match pageSize (options props) with Some n => n | None => 0 end.

Definition sortOrder_ : SortOrder :=
  match sortOrder (options props) with Some o => o | None => desc end.

Definition json_ : bool :=
  match json (options props) with Some b => b | None => false end.

Definition paginationMode : PaginationMode :=
  getPaginationMode (options props).

Definition initialState : RxState :=
  {| result := [];
     page :=
       if PaginationMode_eqb paginationMode InfiniteScroll
       then Some (Int 1)
       else option_map Int (startingPage (options props));
     limit :=
       if PaginationMode_eqb paginationMode InfiniteScroll
       then pageSize_ else 0;
     isFetching := true;
     isExhausted := false;
     pageCount := Int 0 |}.

(** ** The facade callbacks

    Each returns the action it dispatches, [None] when it returns early.
    The callbacks are those of the latest render: the state they close over
    is the current one. *)

Definition fetchPage (state : RxState) (p : Z) : option AnyAction :=
  if negb (PaginationMode_eqb paginationMode Traditional) then None
  else if (p <? 0) || num_gtb (Int p) (pageCount state) then None
  else Some (FetchPage p).

Definition fetchMore (state : RxState) : option AnyAction :=
  if negb (PaginationMode_eqb paginationMode InfiniteScroll) then None
  else if isFetching state || isExhausted state then None
  else Some (FetchMore pageSize_).

Definition resetList (state : RxState) : option AnyAction :=
  if negb (PaginationMode_eqb paginationMode InfiniteScroll) then None
  else if limit state <=? pageSize_ then None
  else Some (Reset pageSize_).

(** The state after a callback ran. *)
Definition dispatched (state : RxState) (a : option AnyAction) : RxState :=
  match a with
  | Some action => reducer state action
  | None => state
  end.

(** ** The query of the result effect

    The bounded and sorted copy [_query] that the first effect builds from
    a valid [query]. *)

Definition materialize (state : RxState) (q : RxQuery) : RxQuery :=
  let q1 :=
    if PaginationMode_eqb paginationMode Traditional
    then limit_ pageSize_
           (skip (num_mul (num_sub (to_number (page state)) (Int 1))
                          (Int pageSize_)) q)
    else q in
  let q2 :=
    if PaginationMode_eqb paginationMode InfiniteScroll
    then limit_ (limit state) q1
    else q1 in
  match sortBy (options props) with
  | Some by_ => if (by_ =? "")%string then q2 else sort by_ sortOrder_ q2
  | None => q2
  end.

(** The callbacks of the two subscriptions: the action each dispatches. *)

Definition on_documents (e : Emission) : AnyAction :=
  let docs := normalize e in
  FetchSuccess (if json_ then map toJSON docs else docs).

Definition on_count (e : Emission) : AnyAction :=
  let docs := normalize e in
  CountPages (ceil_div (len docs) pageSize_).

(** ** The mounted hook and its subscriptions

    The world of one mounted hook: its reducer state, the subscriptions the
    data source holds open for it, and for each of the two effects the
    dependencies of its last run and the cleanup that run returned (the id
    of the subscription that [unsubscribe] will close).  [w_log] records
    every dispatched action with its origin, newest first. *)

Inductive Role : Type := ResultRole | CountRole.

Definition Role_eqb (a b : Role) : bool :=
  match a, b with
  | ResultRole, ResultRole | CountRole, CountRole => true
  | _, _ => false
  end.

Record Subscription : Type := mkSubscription {
  sub_id : nat;
  sub_role : Role;
  sub_query : RxQuery
}.

Inductive Origin : Type :=
| FromEffect
| FromFacade
| FromSubscription (id : nat) (r : Role).

Record World : Type := mkWorld {
  w_state : RxState;
  w_mounted : bool;
  w_live : list Subscription;
  w_next : nat;
  w_result_deps : option (Z * option num);   (* [state.limit, state.page] *)
  w_result_cleanup : option nat;
  w_count_deps : option (option num);        (* [state.page] *)
  w_count_cleanup : option nat;
  w_log : list (Origin * AnyAction)
}.

Definition initialWorld : World :=
  {| w_state := initialState;
     w_mounted := true;
     w_live := [];
     w_next := 0%nat;
     w_result_deps := None;
     w_result_cleanup := None;
     w_count_deps := None;
     w_count_cleanup := None;
     w_log := [] |}.

(** [dispatch(action)] *)
Definition dispatch (o : Origin) (a : AnyAction) (w : World) : World :=
  {| w_state := reducer (w_state w) a;
     w_mounted := w_mounted w;
     w_live := w_live w;
     w_next := w_next w;
     w_result_deps := w_result_deps w;
     w_result_cleanup := w_result_cleanup w;
     w_count_deps := w_count_deps w;
     w_count_cleanup := w_count_cleanup w;
     w_log := (o, a) :: w_log w |}.

Definition dispatch_opt (o : Origin) (a : option AnyAction) (w : World)
  : World :=
  match a with
  | Some action => dispatch o action w
  | None => w
  end.

(** The world after the data source opened a subscription of role [r] to
    [q] under the next id. *)
Definition opened (r : Role) (q : RxQuery) (w : World) : World :=
  {| w_state := w_state w;
     w_mounted := w_mounted w;
     w_live := mkSubscription (w_next w) r q :: w_live w;
     w_next := S (w_next w);
     w_result_deps := w_result_deps w;
     w_result_cleanup := w_result_cleanup w;
     w_count_deps := w_count_deps w;
     w_count_cleanup := w_count_cleanup w;
     w_log := w_log w |}.

(** [q.$.subscribe(callback)]: the handle of the new subscription and the
    world that holds it. *)
Definition subscribe (r : Role) (q : RxQuery) (w : World) : nat * World :=
  (w_next w, opened r q w).

(** [sub.unsubscribe()] *)
Definition unsubscribe (id : nat) (w : World) : World :=
  {| w_state := w_state w;
     w_mounted := w_mounted w;
     w_live := filter (fun s => negb (sub_id s =? id)%nat) (w_live w);
     w_next := w_next w;
     w_result_deps := w_result_deps w;
     w_result_cleanup := w_result_cleanup w;
     w_count_deps := w_count_deps w;
     w_count_cleanup := w_count_cleanup w;
     w_log := w_log w |}.

Definition run_cleanup (c : option nat) (w : World) : World :=
  match c with
  | Some id => unsubscribe id w
  | None => w
  end.

Definition set_result_effect (d : Z * option num) (c : option nat)
  (w : World) : World :=
  {| w_state := w_state w;
     w_mounted := w_mounted w;
     w_live := w_live w;
     w_next := w_next w;
     w_result_deps := Some d;
     w_result_cleanup := c;
     w_count_deps := w_count_deps w;
     w_count_cleanup := w_count_cleanup w;
     w_log := w_log w |}.

Definition set_count_effect (d : option num) (c : option nat)
  (w : World) : World :=
  {| w_state := w_state w;
     w_mounted := w_mounted w;
     w_live := w_live w;
     w_next := w_next w;
     w_result_deps := w_result_deps w;
     w_result_cleanup := w_result_cleanup w;
     w_count_deps := Some d;
     w_count_cleanup := c;
     w_log := w_log w |}.

(** The body of the first [useEffect], run for the rendered [state]. *)
Definition result_effect (state : RxState) (w : World) : World :=
  let d := (limit state, page state) in
  match query props with
  | None => set_result_effect d None w
  | Some q =>
      let _query := materialize state q in
      let w1 := dispatch FromEffect QueryChanged w in
      let '(sub, w2) := subscribe ResultRole _query w1 in
      set_result_effect d (Some sub) w2
  end.

(** The body of the second [useEffect]. *)
Definition count_effect (state : RxState) (w : World) : World :=
  let d := page state in
  if negb (truthy (page state)) then set_count_effect d None w
  else
    match query props with
    | None => set_count_effect d None w
    | Some q =>
        let '(countQuerySub, w1) := subscribe CountRole q w in
        set_count_effect d (Some countQuerySub) w1
    end.

(** Whether an effect is due: it never ran, or a dependency changed. *)
Definition result_due (state : RxState) (w : World) : bool :=
  match w_result_deps w with
  | None => true
  | Some (l, p) => negb ((l =? limit state) && value_same p (page state))
  end.

Definition count_due (state : RxState) (w : World) : bool :=
  match w_count_deps w with
  | None => true
  | Some p => negb (value_same p (page state))
  end.

(** The cleanups of the effects that are due, which React runs before any
    of their bodies. *)
Definition cleanup_phase (state : RxState) (w : World) : World :=
  let w1 := if result_due state w
            then run_cleanup (w_result_cleanup w) w else w in
  if count_due state w then run_cleanup (w_count_cleanup w) w1 else w1.

(** React commits the render of the current state and flushes the effects. *)
Definition commit (w : World) : World :=
  let state := w_state w in
  let rdue := result_due state w in
  let cdue := count_due state w in
  let w1 := cleanup_phase state w in
  let w2 := if rdue then result_effect state w1 else w1 in
  if cdue then count_effect state w2 else w2.

(** The component unmounts: React runs the cleanups of both effects. *)
Definition unmount (w : World) : World :=
  let w1 := run_cleanup (w_count_cleanup w)
              (run_cleanup (w_result_cleanup w) w) in
  {| w_state := w_state w1;
     w_mounted := false;
     w_live := w_live w1;
     w_next := w_next w1;
     w_result_deps := None;
     w_result_cleanup := None;
     w_count_deps := None;
     w_count_cleanup := None;
     w_log := w_log w1 |}.

Definition find_subscription (id : nat) (w : World) : option Subscription :=
  find (fun s => (sub_id s =? id)%nat) (w_live w).

(** The data source pushes [e] to the subscription [id]; a subscription
    that was unsubscribed delivers nothing. *)
Definition emit (id : nat) (e : Emission) (w : World) : World :=
  match find_subscription id w with
  | Some s =>
      dispatch (FromSubscription id (sub_role s))
        (match sub_role s with
         | ResultRole => on_documents e
         | CountRole => on_count e
         end) w
  | None => w
  end.

Inductive Event : Type :=
| Commit
| Emit (id : nat) (e : Emission)
| CallFetchPage (p : Z)
| CallFetchMore
| CallResetList
| Unmount.

(** One step of the hook; an unmounted hook ignores every event. *)
Definition step (w : World) (ev : Event) : World :=
  if negb (w_mounted w) then w
  else
    match ev with
    | Commit => commit w
    | Emit id e => emit id e w
    | CallFetchPage p =>
        dispatch_opt FromFacade (fetchPage (w_state w) p) w
    | CallFetchMore => dispatch_opt FromFacade (fetchMore (w_state w)) w
    | CallResetList => dispatch_opt FromFacade (resetList (w_state w)) w
    | Unmount => unmount w
    end.

Definition run (evs : list Event) : World := fold_left step evs initialWorld.

End Mounted.

End Hook.

Arguments Item T : clear implicits.
Arguments Emission T : clear implicits.
Arguments RxState T : clear implicits.
Arguments AnyAction T : clear implicits.
Arguments World T : clear implicits.
Arguments Event T : clear implicits.

(** ** The reducer of [useRxData]

    The older hook has no pages: its state has the four fields below and
    its reducer the three actions. *)

Module UseRxData.

Section Reducer.

Context {T : Type}.

Record RxState : Type := mkRxState {
  result : list (Item T);
  isFetching : bool;
  exhausted : bool;
  limit : Z
}.

Inductive AnyAction : Type :=
| Reset (pageSize : Z)
| FetchMore (pageSize : Z)
| FetchSuccess (docs : list (Item T)).

Definition reducer (state : RxState) (action : AnyAction) : RxState :=
  match action with
  | Reset pageSize =>
      {| result := [];
         isFetching := true;
         exhausted := exhausted state;
         limit := pageSize |}
  | FetchMore pageSize =>
      {| result := result state;
         isFetching := true;
         exhausted := exhausted state;
         limit := limit state + pageSize |}
  | FetchSuccess docs =>
      {| result := docs;
         isFetching := false;
         exhausted := (limit state =? 0) || (len docs <? limit state);
         limit := limit state |}
  end.

End Reducer.

Arguments RxState T : clear implicits.
Arguments AnyAction T : clear implicits.

(** The rest of [useRxData]: its options, its initial state, its two
    callbacks and the query its effect subscribes to. *)

Record UseRxDataOptions : Type := mkOptions {
  pageSize : option Z;
  sortBy : option string;
  sortOrder : option SortOrder;
  json : option bool
}.

Section Hook.

Context {T : Type}.
Variable options : UseRxDataOptions.

(** The destructured options, with their defaults. *)
Definition pageSize_ : Z :=
  match pageSize options with Some n => n | None => 0 end.

Definition sortOrder_ : SortOrder :=
  match sortOrder options with Some o => o | None => desc end.

Definition initialState : RxState T :=
  {| result := [];
     limit := pageSize_;
     isFetching := true;
     exhausted := false |}.

(** The callbacks created in a render with the given [state], as the
    action each dispatches. *)
Definition fetchMore (state : RxState T) : option (AnyAction T) :=
  if (limit state =? 0) || isFetching state || exhausted state then None
  else Some (FetchMore pageSize_).

Definition resetList (state : RxState T) : option (AnyAction T) :=
  if (limit state =? 0) || (limit state <=? pageSize_) then None
  else Some (Reset pageSize_).

(** The query the effect subscribes to, built from the valid query [q]
    that [queryConstructor(collection)] returned. *)
Definition materialize (state : RxState T) (q : RxQuery) : RxQuery :=
  let q1 := if negb (limit state =? 0) then limit_ (limit state) q else q in
  match sortBy options with
  | Some by_ => if (by_ =? "")%string then q1 else sort by_ sortOrder_ q1
  | None => q1
  end.

End Hook.

End UseRxData.

(** ** The comparators of the test helpers

    [sortByNameAsc] and [sortByNameDesc] compare two characters by name;
    [<] and [>] on names are the lexicographic order on the characters of
    the strings, here strings of 8-bit characters. *)

Module TestHelpers.

Record Character : Type := mkCharacter {
  name : string;
  affiliation : string
}.

Definition sortByNameAsc (a b : Character) : Z :=
  if String.ltb (name a) (name b) then -1
  else if String.ltb (name b) (name a) then 1
  else 0.

Definition sortByNameDesc (a b : Character) : Z :=
  if String.ltb (name a) (name b) then 1
  else if String.ltb (name b) (name a) then -1
  else 0.

End TestHelpers.

(** * Vocabulary of the properties *)

(** [a < b] on JavaScript numbers, as a proposition. *)
Definition num_lt (a b : num) : Prop :=
  match a, b with
  | Int x, Int y => x < y
  | Int _, PInf | NInf, Int _ | NInf, PInf => True
  | _, _ => False
  end.

(** [p] is a page that [fetchPage] accepts: neither [p < 0] nor
    [p > pageCount]. *)
Definition in_range (p : Z) (count : num) : Prop :=
  ~ p < 0 /\ ~ num_lt count (Int p).

(** A page that is [undefined], or an integer that is at least [k]. *)
Definition page_at_least (k : Z) (v : option num) : Prop :=
  match v with
  | None => True
  | Some (Int p) => k <= p
  | Some _ => False
  end.

(** The options the specification expects: a page size that is not
    negative and a starting page that is positive. *)
Definition valid_options (o : UseRxQueryOptions) : Prop :=
  (forall n, pageSize o = Some n -> 0 <= n) /\
  (forall p, startingPage o = Some p -> 1 <= p).

(** The id that a cleanup closes, as a list. *)
Definition slot (c : option nat) : list nat :=
  match c with
  | Some id => [id]
  | None => []
  end.

Section Vocabulary.

Context {T : Type}.

(** Whether an action is a [FetchSuccess]. *)
Definition is_FetchSuccess (a : AnyAction T) : bool :=
  match a with
  | FetchSuccess _ => true
  | _ => false
  end.

Definition is_CountPages (a : AnyAction T) : bool :=
  match a with
  | CountPages _ => true
  | _ => false
  end.

(** The ids of the live subscriptions of a role. *)
Definition live_ids (r : Role) (w : World T) : list nat :=
  map sub_id (filter (fun s => Role_eqb (sub_role s) r) (w_live w)).

(** The ids of the subscriptions of a role whose emissions were applied,
    newest first. *)
Fixpoint emissions (r : Role) (log : list (Origin * AnyAction T))
  : list nat :=
  match log with
  | [] => []
  | (FromSubscription id r', _) :: rest =>
      if Role_eqb r' r then id :: emissions r rest else emissions r rest
  | _ :: rest => emissions r rest
  end.

(** No subscription delivers after one that was opened after it: along the
    log, newest first, the ids of a role never increase. *)
Definition in_order (ids : list nat) : Prop :=
  forall i j older newer,
    nth_error ids i = Some newer ->
    nth_error ids j = Some older ->
    (i < j)%nat -> (older <= newer)%nat.

(** The handles of a world: the live subscriptions of each role are
    exactly the one the cleanup of its effect will close, an unmounted hook
    holds no cleanup, and a count subscription goes with a truthy page. *)
Record handles_ok (w : World T) : Prop := {
  ok_result : live_ids ResultRole w = slot (w_result_cleanup w);
  ok_count : live_ids CountRole w = slot (w_count_cleanup w);
  ok_unmounted :
    w_mounted w = false ->
    w_result_cleanup w = None /\ w_count_cleanup w = None;
  ok_count_page :
    forall id, w_count_cleanup w = Some id ->
               exists p, w_count_deps w = Some p /\ truthy p = true
}.

(** The streams of a world of the hook mounted with [props]: ids are fresh
    and belong to one role, the log of a role is in order and never ahead
    of a live subscription, and a count subscription observes the base
    query. *)
Record streams_ok (props : Props) (w : World T) : Prop := {
  ok_fresh : forall r i, In i (live_ids r w) -> (i < w_next w)%nat;
  ok_disjoint :
    forall i, In i (live_ids ResultRole w) ->
              In i (live_ids CountRole w) -> False;
  ok_log_fresh :
    forall r i, In i (emissions r (w_log w)) -> (i < w_next w)%nat;
  ok_log_live :
    forall r i j, In i (emissions r (w_log w)) ->
                  In j (live_ids r w) -> (i <= j)%nat;
  ok_log_order : forall r, in_order (emissions r (w_log w));
  ok_count_query :
    forall x, In x (w_live w) -> sub_role x = CountRole ->
              query props = Some (sub_query x)
}.

Definition subscriptions_ok (props : Props) (w : World T) : Prop :=
  handles_ok w /\ streams_ok props w.

(** The state of a hook mounted with valid options: the limit is not
    negative, the page is an integer from 0 on when it is defined, and from
    1 on outside [Traditional] mode. *)
Definition state_ok (props : Props) (s : RxState T) : Prop :=
  0 <= limit s /\
  page_at_least 0 (page s) /\
  (paginationMode props <> Traditional -> page_at_least 1 (page s)) /\
  (paginationMode props = InfiniteScroll -> exists p, page s = Some (Int p)).

(** The world of a hook without pagination and without a starting page:
    the page is falsy, no page count was ever dispatched or stored, and
    no count subscription is live. *)
Definition uncounted (w : World T) : Prop :=
  truthy (page (w_state w)) = false /\
  pageCount (w_state w) = Int 0 /\
  live_ids CountRole w = [] /\
  forallb (fun e => negb (is_CountPages (snd e))) (w_log w) = true.

(** The actions the hook can dispatch in state [s]: the one of the result
    effect, those of the two subscription callbacks and those of the
    facade. *)
Definition dispatchable (props : Props) (s : RxState T) (a : AnyAction T)
  : Prop :=
  a = QueryChanged \/
  (exists e, a = on_documents props e) \/
  (exists e, a = on_count props e) \/
  (exists p, fetchPage props s p = Some a) \/
  fetchMore props s = Some a \/
  resetList props s = Some a.

End Vocabulary.

(** The count subscription as the specification has it: outside
    [Traditional] mode no count subscription is ever live, no [CountPages]
    is dispatched and [pageCount] stays 0. *)
Definition count_only_in_Traditional (T : Type) : Prop :=
  forall (props : Props) (evs : list (Event T)),
    paginationMode props <> Traditional ->
    live_ids CountRole (run props evs) = [] /\
    forallb (fun e => negb (is_CountPages (snd e)))
      (w_log (run props evs)) = true /\
    pageCount (w_state (run props evs)) = Int 0.

(** The invariant of the pagination state as the specification has it:
    with valid options, every reachable state has [limit >= 0] and, when
    the page is defined, [page >= 1]. *)
Definition limit_and_page_bounds (T : Type) : Prop :=
  forall (props : Props) (evs : list (Event T)),
    valid_options (options props) ->
    0 <= limit (w_state (run props evs)) /\
    page_at_least 1 (page (w_state (run props evs))).

(** ** Sample mounts *)

Definition characters : RxQuery :=
  {| selector := "characters"; q_skip := None; q_limit := None;
     q_sort := None |}.

(** [{ pageSize: 5, startingPage: 1 }] *)
Definition traditional_5 : Props :=
  {| query := Some characters;
     options := {| pageSize := Some 5; startingPage := Some 1;
                   sortBy := None; sortOrder := None; json := None |} |}.

(** [{ pageSize: 2 }] *)
Definition infinite_2 : Props :=
  {| query := Some characters;
     options := {| pageSize := Some 2; startingPage := None;
                   sortBy := None; sortOrder := None; json := None |} |}.

(** Twelve documents. *)
Definition twelve : list string :=
  ["a"; "b"; "c"; "d"; "e"; "f"; "g"; "h"; "i"; "j"; "k"; "l"]%string.

(** The first commit of [traditional_5] opens the result subscription 0
    and the count subscription 1; the count stream then pushes the twelve
    documents. *)
Definition counted_12 : list (Event string) :=
  [Commit; Emit 1%nat (Documents twelve)].

(** The first commit of [infinite_2], then the first two documents. *)
Definition first_two : list (Event string) :=
  [Commit; Emit 0%nat (Documents ["A"; "B"]%string)].

(** [fetchMore] twice after [first_two], each followed by its commit and
    the documents of the new result subscription: the limit is 6. *)
Definition limit_6 : list (Event string) :=
  first_two ++
  [CallFetchMore; Commit;
   Emit 2%nat (Documents ["A"; "B"; "C"; "D"]%string);
   CallFetchMore; Commit].

(** [{}] *)
Definition unpaginated : Props :=
  {| query := Some characters;
     options := {| pageSize := None; startingPage := None;
                   sortBy := None; sortOrder := None; json := None |} |}.

(** * Vocabulary of the further properties *)

Section FurtherVocabulary.

Context {T : Type}.

(** A world whose effects are up to date: no effect is due for the
    current state. *)
Definition settled (w : World T) : Prop :=
  result_due (w_state w) w = false /\ count_due (w_state w) w = false.

Definition is_Plain (i : Item T) : bool :=
  match i with
  | Plain _ => true
  | RxDoc _ => false
  end.

(** Whether a log, newest first, ends in a dispatch that awaits results:
    the last action other than a [CountPages] is not a [FetchSuccess]. *)
Fixpoint awaiting (log : list (Origin * AnyAction T)) : bool :=
  match log with
  | [] => true
  | (_, CountPages _) :: rest => awaiting rest
  | (_, FetchSuccess _) :: _ => false
  | _ :: _ => true
  end.

(** The reducer folded over a log, oldest action first. *)
Definition replay (s0 : RxState T) (log : list (Origin * AnyAction T))
  : RxState T :=
  fold_right (fun e s => reducer s (snd e)) s0 log.

(** Every live result subscription observes the query materialized for
    the dependencies its effect last ran with. *)
Definition in_sync (props : Props) (w : World T) : Prop :=
  forall x, In x (w_live w) -> sub_role x = ResultRole ->
    exists q (s : RxState T),
      query props = Some q /\
      w_result_deps w = Some (limit s, page s) /\
      sub_query x = materialize props s q.

(** The state of [useRxQuery] as a state of [useRxData]: the fields the
    older hook has. *)
Definition forget (s : RxState T) : UseRxData.RxState T :=
  {| UseRxData.result := result s;
     UseRxData.isFetching := isFetching s;
     UseRxData.exhausted := isExhausted s;
     UseRxData.limit := limit s |}.

(** The action of [useRxQuery] as an action of [useRxData], for the three
    actions the older hook has. *)
Definition forget_action (a : AnyAction T) : option (UseRxData.AnyAction T) :=
  match a with
  | Reset n => Some (UseRxData.Reset n)
  | FetchMore n => Some (UseRxData.FetchMore n)
  | FetchSuccess docs => Some (UseRxData.FetchSuccess docs)
  | _ => None
  end.

End FurtherVocabulary.

(** The options of [useRxQuery] without the starting page, which
    [useRxData] does not have. *)
Definition forget_options (o : UseRxQueryOptions) : UseRxData.UseRxDataOptions :=
  {| UseRxData.pageSize := pageSize o;
     UseRxData.sortBy := sortBy o;
     UseRxData.sortOrder := sortOrder o;
     UseRxData.json := json o |}.

(** ** Further sample mounts *)

(** [{ startingPage: 2 }]: a starting page without a page size. *)
Definition starting_page_only : Props :=
  {| query := Some characters;
     options := {| pageSize := None; startingPage := Some 2;
                   sortBy := None; sortOrder := None; json := None |} |}.

(** [{ pageSize: 2, json: true, sortBy: 'name' }] *)
Definition json_by_name : Props :=
  {| query := Some characters;
     options := {| pageSize := Some 2; startingPage := None;
                   sortBy := Some "name"%string; sortOrder := None;
                   json := Some true |} |}.

(** [{ pageSize: 2 }] on a query that is not an [RxQuery]. *)
Definition no_query : Props :=
  {| query := None;
     options := {| pageSize := Some 2; startingPage := None;
                   sortBy := None; sortOrder := None; json := None |} |}.

Definition luke : TestHelpers.Character :=
  {| TestHelpers.name := "Luke"; TestHelpers.affiliation := "Jedi" |}.

Definition leia : TestHelpers.Character :=
  {| TestHelpers.name := "Leia"; TestHelpers.affiliation := "Rebels" |}.

Definition yoda : TestHelpers.Character :=
  {| TestHelpers.name := "Yoda"; TestHelpers.affiliation := "Jedi" |}.

(** * Properties *)

(** ** Comparisons *)

Lemma num_ltb_lt (a b : num) : num_ltb a b = true <-> num_lt a b.
Proof.
  destruct a, b; simpl; try tauto; try (split; [discriminate | tauto]).
  apply Z.ltb_lt.
Qed.

Lemma num_same_eq (a b : num) : num_same a b = true <-> a = b.
Proof.
  destruct a, b; simpl; split; intro H; try discriminate; try reflexivity.
  - apply Z.eqb_eq in H. now subst.
  - injection H as ->. apply Z.eqb_refl.
Qed.

Lemma value_same_eq (a b : option num) : value_same a b = true <-> a = b.
Proof.
  destruct a as [a|], b as [b|]; simpl; split; intro H;
    try discriminate; try reflexivity.
  - apply num_same_eq in H. now subst.
  - injection H as ->. now apply num_same_eq.
Qed.

Lemma PaginationMode_eqb_eq (a b : PaginationMode) :
  PaginationMode_eqb a b = true <-> a = b.
Proof. destruct a, b; simpl; split; congruence. Qed.

Lemma PaginationMode_eqb_neq (a b : PaginationMode) :
  PaginationMode_eqb a b = false <-> a <> b.
Proof. destruct a, b; simpl; split; congruence. Qed.

Section ReducerProperties.

Context {T : Type}.
Implicit Types (s : RxState T) (items docs : list (Item T)).

(** C1: for every state [s] and every sequence of items, the reducer on
    [FetchSuccess items] sets [result] to the items and [isFetching] to
    false, and sets [isExhausted] to true exactly when [limit s] is 0 or
    there are fewer items than [limit s]. *)
Theorem reducer_FetchSuccess s items :
  result (reducer s (FetchSuccess items)) = items /\
  isFetching (reducer s (FetchSuccess items)) = false /\
  (isExhausted (reducer s (FetchSuccess items)) = true <->
   limit s = 0 \/ len items < limit s).
Proof.
  simpl. repeat split.
  - intro H. apply orb_true_iff in H. destruct H as [H | H].
    + left. now apply Z.eqb_eq.
    + right. now apply Z.ltb_lt.
  - intros [H | H]; apply orb_true_iff.
    + left. now apply Z.eqb_eq.
    + right. now apply Z.ltb_lt.
Qed.

(** The reducer of [useRxData] computes [exhausted] the same way. *)
Lemma useRxData_reducer_FetchSuccess (s : UseRxData.RxState T) items :
  let s' := UseRxData.reducer s (UseRxData.FetchSuccess items) in
  UseRxData.result s' = items /\
  UseRxData.isFetching s' = false /\
  (UseRxData.exhausted s' = true <->
   UseRxData.limit s = 0 \/ len items < UseRxData.limit s).
Proof.
  simpl. repeat split.
  - intro H. apply orb_true_iff in H. destruct H as [H | H].
    + left. now apply Z.eqb_eq.
    + right. now apply Z.ltb_lt.
  - intros [H | H]; apply orb_true_iff.
    + left. now apply Z.eqb_eq.
    + right. now apply Z.ltb_lt.
Qed.

Lemma isExhausted_kept s (a : AnyAction T) :
  is_FetchSuccess a = false ->
  isExhausted (reducer s a) = isExhausted s.
Proof. destruct a; simpl; intro H; try reflexivity. discriminate. Qed.

Lemma isExhausted_kept_fold (acts : list (AnyAction T)) s :
  forallb (fun a => negb (is_FetchSuccess a)) acts = true ->
  isExhausted (fold_left reducer acts s) = isExhausted s.
Proof.
  revert s. induction acts as [| a acts IH]; intros s H; simpl in *.
  - reflexivity.
  - apply andb_true_iff in H. destruct H as [Ha Hrest].
    rewrite IH by exact Hrest.
    apply isExhausted_kept. now apply negb_true_iff.
Qed.

(** C10: the reducer on [Reset n] changes only [result], [isFetching] and
    [limit]: [isExhausted], [page] and [pageCount] keep their values, and
    [isExhausted] keeps its value through every further action up to the
    next [FetchSuccess]. *)
Theorem reducer_Reset_frame s (n : Z) :
  isExhausted (reducer s (Reset n)) = isExhausted s /\
  page (reducer s (Reset n)) = page s /\
  pageCount (reducer s (Reset n)) = pageCount s /\
  forall acts : list (AnyAction T),
    isExhausted
      (fold_left reducer
         (filter (fun a => negb (is_FetchSuccess a)) acts)
         (reducer s (Reset n)))
    = isExhausted s.
Proof.
  repeat split.
  intro acts. rewrite isExhausted_kept_fold.
  - reflexivity.
  - apply forallb_forall. intros a Ha. now apply filter_In in Ha.
Qed.

(** The reducer of [useRxData] keeps [exhausted] on [Reset] as well. *)
Lemma useRxData_reducer_Reset_frame (s : UseRxData.RxState T) (n : Z) :
  UseRxData.exhausted (UseRxData.reducer s (UseRxData.Reset n))
  = UseRxData.exhausted s.
Proof. reflexivity. Qed.

End ReducerProperties.

(** ** The facade callbacks *)

Section FacadeProperties.

Context {T : Type}.
Variable props : Props.
Implicit Types (s : RxState T) (w : World T).

(** A facade call on a mounted hook changes the state as the callback's
    dispatch does. *)
Lemma step_facade_state w :
  w_mounted w = true ->
  (forall p, w_state (step props w (CallFetchPage p))
             = dispatched (w_state w) (fetchPage props (w_state w) p)) /\
  w_state (step props w CallFetchMore)
  = dispatched (w_state w) (fetchMore props (w_state w)) /\
  w_state (step props w CallResetList)
  = dispatched (w_state w) (resetList props (w_state w)).
Proof.
  intro Hm. unfold step. rewrite Hm. simpl.
  repeat split; intros;
    match goal with |- context [dispatch_opt _ ?a _] => destruct a end;
    reflexivity.
Qed.

(** C5: [fetchPage p] leaves the state unchanged unless the mode is
    [Traditional] and [p] is in range (neither [p < 0] nor
    [p > pageCount]); in range it dispatches [FetchPage p], after which
    [isFetching] is true and [page] is [p], and no other field changed. *)
Theorem fetchPage_effect s (p : Z) :
  (paginationMode props = Traditional /\ in_range p (pageCount s) ->
   fetchPage props s p = Some (FetchPage p) /\
   isFetching (dispatched s (fetchPage props s p)) = true /\
   page (dispatched s (fetchPage props s p)) = Some (Int p) /\
   result (dispatched s (fetchPage props s p)) = result s /\
   isExhausted (dispatched s (fetchPage props s p)) = isExhausted s /\
   limit (dispatched s (fetchPage props s p)) = limit s /\
   pageCount (dispatched s (fetchPage props s p)) = pageCount s) /\
  (~ (paginationMode props = Traditional /\ in_range p (pageCount s)) ->
   fetchPage props s p = None /\
   dispatched s (fetchPage props s p) = s).
Proof.
  unfold fetchPage, in_range, num_gtb.
  destruct (PaginationMode_eqb (paginationMode props) Traditional) eqn:Hmode;
    simpl.
  - apply PaginationMode_eqb_eq in Hmode.
    destruct (p <? 0) eqn:Hneg; simpl.
    + apply Z.ltb_lt in Hneg. split; [intros [_ [H _]]; contradiction |].
      intros _. split; reflexivity.
    + apply Z.ltb_ge in Hneg.
      destruct (num_ltb (pageCount s) (Int p)) eqn:Hgt; simpl.
      * apply num_ltb_lt in Hgt.
        split; [intros [_ [_ H]]; contradiction |].
        intros _. split; reflexivity.
      * split; [intros _; repeat split |].
        intro H. exfalso. apply H. repeat split; trivial.
        -- lia.
        -- intro Hlt. apply num_ltb_lt in Hlt. congruence.
  - apply PaginationMode_eqb_neq in Hmode.
    split; [intros [H _]; contradiction |].
    intros _. split; reflexivity.
Qed.

(** C6: [fetchMore] leaves the state unchanged unless the mode is
    [InfiniteScroll] and neither [isFetching] nor [isExhausted] holds;
    accepted, it dispatches [FetchMore pageSize], after which [isFetching]
    is true, [page] is [page + 1] and [limit] is [limit + pageSize], the
    other fields unchanged. *)
Theorem fetchMore_effect s :
  (paginationMode props = InfiniteScroll /\
   isFetching s = false /\ isExhausted s = false ->
   fetchMore props s = Some (FetchMore (pageSize_ props)) /\
   isFetching (dispatched s (fetchMore props s)) = true /\
   page (dispatched s (fetchMore props s))
   = Some (num_add (to_number (page s)) (Int 1)) /\
   (forall p, page s = Some (Int p) ->
              page (dispatched s (fetchMore props s)) = Some (Int (p + 1))) /\
   limit (dispatched s (fetchMore props s)) = limit s + pageSize_ props /\
   result (dispatched s (fetchMore props s)) = result s /\
   isExhausted (dispatched s (fetchMore props s)) = isExhausted s /\
   pageCount (dispatched s (fetchMore props s)) = pageCount s) /\
  (~ (paginationMode props = InfiniteScroll /\
      isFetching s = false /\ isExhausted s = false) ->
   fetchMore props s = None /\
   dispatched s (fetchMore props s) = s).
Proof.
  unfold fetchMore.
  destruct (PaginationMode_eqb (paginationMode props) InfiniteScroll)
    eqn:Hmode; simpl.
  - apply PaginationMode_eqb_eq in Hmode.
    destruct (isFetching s) eqn:Hf, (isExhausted s) eqn:He; simpl;
      try (split; [intros (_ & ? & ?); discriminate
                  | intros _; split; reflexivity]).
    split.
    + intros _. rewrite He. repeat split.
      intros p Hp. now rewrite Hp.
    + intro H. exfalso. apply H. repeat split; trivial.
  - apply PaginationMode_eqb_neq in Hmode.
    split; [intros [H _]; contradiction |].
    intros _. split; reflexivity.
Qed.

(** C7: [resetList] leaves the state unchanged unless the mode is
    [InfiniteScroll] and [limit > pageSize]; accepted, it dispatches
    [Reset pageSize], after which, whatever the state was, [result] is
    empty, [limit] is [pageSize] and [isFetching] is true. *)
Theorem resetList_effect s :
  (paginationMode props = InfiniteScroll /\ limit s > pageSize_ props ->
   resetList props s = Some (Reset (pageSize_ props)) /\
   result (dispatched s (resetList props s)) = [] /\
   limit (dispatched s (resetList props s)) = pageSize_ props /\
   isFetching (dispatched s (resetList props s)) = true) /\
  (~ (paginationMode props = InfiniteScroll /\ limit s > pageSize_ props) ->
   resetList props s = None /\
   dispatched s (resetList props s) = s).
Proof.
  unfold resetList.
  destruct (PaginationMode_eqb (paginationMode props) InfiniteScroll)
    eqn:Hmode; simpl.
  - apply PaginationMode_eqb_eq in Hmode.
    destruct (limit s <=? pageSize_ props) eqn:Hle; simpl.
    + apply Z.leb_le in Hle. split; [intros [_ H]; lia |].
      intros _. split; reflexivity.
    + apply Z.leb_gt in Hle. split; [intros _; repeat split |].
      intro H. exfalso. apply H. split; [trivial | lia].
  - apply PaginationMode_eqb_neq in Hmode.
    split; [intros [H _]; contradiction |].
    intros _. split; reflexivity.
Qed.

(** ** The materialized query *)

(** The query the result effect subscribes to is the materialized one. *)
Lemma result_effect_subscribes s w (q : RxQuery) :
  query props = Some q ->
  w_live (result_effect props s w)
  = mkSubscription (w_next w) ResultRole (materialize props s q) :: w_live w.
Proof. intro Hq. unfold result_effect. rewrite Hq. reflexivity. Qed.

(** C8: in [Traditional] mode, for every state whose page is defined, the
    materialized query has [skip = (page - 1) * pageSize], which for an
    integer page [p] is the integer [(p - 1) * pageSize], and
    [limit = pageSize], with the configured sort on top and the selection
    of the base query. *)
Theorem materialize_Traditional s (q : RxQuery) (n : num) :
  paginationMode props = Traditional ->
  page s = Some n ->
  q_skip (materialize props s q)
  = Some (num_mul (num_sub n (Int 1)) (Int (pageSize_ props))) /\
  (forall p, n = Int p ->
             q_skip (materialize props s q)
             = Some (Int ((p - 1) * pageSize_ props))) /\
  q_limit (materialize props s q) = Some (pageSize_ props) /\
  selector (materialize props s q) = selector q /\
  q_sort (materialize props s q)
  = match sortBy (options props) with
    | Some by_ =>
        if (by_ =? "")%string then q_sort q
        else Some (by_, sortOrder_ props)
    | None => q_sort q
    end.
Proof.
  intros Hmode Hpage. unfold materialize. rewrite Hmode, Hpage. simpl.
  assert (Hint : forall p, n = Int p ->
                   num_mul (num_sub n (Int 1)) (Int (pageSize_ props))
                   = Int ((p - 1) * pageSize_ props)).
  { intros p ->. simpl. f_equal. }
  destruct (sortBy (options props)) as [by_ |];
    [destruct (by_ =? "")%string |]; simpl; repeat split;
    intros p Hp; f_equal; now apply Hint.
Qed.

End FacadeProperties.

(** ** The subscription manager *)

Section ManagerProperties.

Context {T : Type}.
Variable props : Props.
Implicit Types (s : RxState T) (w : World T).

Lemma run_snoc (evs : list (Event T)) (ev : Event T) :
  run props (evs ++ [ev]) = step props (run props evs) ev.
Proof. unfold run. now rewrite fold_left_app. Qed.

Lemma run_app (evs evs' : list (Event T)) :
  run props (evs ++ evs') = fold_left (step props) evs' (run props evs).
Proof. unfold run. now rewrite fold_left_app. Qed.

(** A property of the initial world that every step preserves holds in
    every world the hook reaches. *)
Lemma run_invariant (P : World T -> Prop) :
  P (initialWorld props) ->
  (forall w ev, P w -> P (step props w ev)) ->
  forall evs, P (run props evs).
Proof.
  intros Hinit Hstep evs. induction evs as [| ev evs IH] using rev_ind.
  - exact Hinit.
  - rewrite run_snoc. now apply Hstep.
Qed.

Lemma step_unmounted w (ev : Event T) :
  w_mounted w = false -> step props w ev = w.
Proof. intro H. unfold step. now rewrite H. Qed.

Lemma steps_unmounted (evs : list (Event T)) w :
  w_mounted w = false -> fold_left (step props) evs w = w.
Proof.
  intro H. induction evs as [| ev evs IH]; simpl.
  - reflexivity.
  - now rewrite step_unmounted.
Qed.

(** *** How the primitives change the live ids *)

Lemma ids_unsubscribed (r : Role) (id : nat) (l : list Subscription) :
  map sub_id
    (filter (fun x => Role_eqb (sub_role x) r)
       (filter (fun x => negb (sub_id x =? id)%nat) l))
  = filter (fun i => negb (i =? id)%nat)
      (map sub_id (filter (fun x => Role_eqb (sub_role x) r) l)).
Proof.
  induction l as [| x l IH]; simpl; [reflexivity |].
  destruct (negb (sub_id x =? id)%nat) eqn:Hid,
           (Role_eqb (sub_role x) r) eqn:Hr;
    simpl; rewrite ?Hid, ?Hr; simpl; rewrite ?Hid; congruence.
Qed.

Lemma live_ids_unsubscribe (r : Role) (id : nat) w :
  live_ids r (unsubscribe id w)
  = filter (fun i => negb (i =? id)%nat) (live_ids r w).
Proof. apply ids_unsubscribed. Qed.

Lemma live_ids_opened (r r' : Role) (q : RxQuery) w :
  live_ids r (opened r' q w)
  = if Role_eqb r' r then w_next w :: live_ids r w else live_ids r w.
Proof. unfold live_ids. simpl. now destruct (Role_eqb r' r). Qed.

Lemma live_ids_dispatch (r : Role) o (a : AnyAction T) w :
  live_ids r (dispatch o a w) = live_ids r w.
Proof. reflexivity. Qed.

Lemma live_ids_set_result_effect (r : Role) d c w :
  live_ids r (set_result_effect d c w) = live_ids r w.
Proof. reflexivity. Qed.

Lemma live_ids_set_count_effect (r : Role) d c w :
  live_ids r (set_count_effect d c w) = live_ids r w.
Proof. reflexivity. Qed.

Lemma filter_other (id : nat) (l : list nat) :
  ~ In id l -> filter (fun i => negb (i =? id)%nat) l = l.
Proof.
  intro H. induction l as [| x l IH]; simpl; [reflexivity |].
  destruct (Nat.eqb_spec x id) as [-> | Hne]; simpl.
  - exfalso. apply H. now left.
  - rewrite IH; [reflexivity |]. intro Hin. apply H. now right.
Qed.

Lemma filter_self (id : nat) :
  filter (fun i => negb (i =? id)%nat) [id] = [].
Proof. simpl. now rewrite Nat.eqb_refl. Qed.

Lemma live_none w :
  live_ids ResultRole w = [] -> live_ids CountRole w = [] -> w_live w = [].
Proof.
  unfold live_ids. destruct (w_live w) as [| x l]; [reflexivity |].
  simpl. destruct (sub_role x); simpl; discriminate.
Qed.

Lemma find_subscription_live (id : nat) w (x : Subscription) :
  find_subscription id w = Some x ->
  In x (w_live w) /\ sub_id x = id /\ In id (live_ids (sub_role x) w).
Proof.
  unfold find_subscription. intro H. apply find_some in H.
  destruct H as [Hin Hid]. apply Nat.eqb_eq in Hid.
  repeat split; trivial.
  unfold live_ids. rewrite <- Hid. apply in_map. apply filter_In.
  split; [exact Hin |]. now destruct (sub_role x).
Qed.

Lemma in_order_cons (id : nat) (ids : list nat) :
  (forall older, In older ids -> (older <= id)%nat) ->
  in_order ids -> in_order (id :: ids).
Proof.
  intros Hhead Htail i j older newer Hi Hj Hlt.
  destruct j as [| j]; [lia |]. simpl in Hj.
  destruct i as [| i]; simpl in Hi.
  - injection Hi as <-. apply Hhead. eapply nth_error_In; eauto.
  - apply (Htail i j); trivial. lia.
Qed.

(** *** The streams *)

Lemma streams_initial : streams_ok props (initialWorld (T:=T) props).
Proof.
  constructor; simpl; try (intros; contradiction).
  intros r i j older newer Hi. destruct i; discriminate.
Qed.

Lemma streams_dispatch o (a : AnyAction T) w :
  (forall id r, o <> FromSubscription id r) ->
  streams_ok props w -> streams_ok props (dispatch o a w).
Proof.
  intros Ho [Hfresh Hdis Hlf Hll Hlo Hcq].
  assert (He : forall r, emissions r (w_log (dispatch o a w))
                         = emissions r (w_log w)).
  { intro r. simpl. destruct o; trivial. now destruct (Ho id r0). }
  constructor; try assumption.
  - intros r i Hi. rewrite He in Hi. now apply (Hlf r).
  - intros r i j Hi Hj. rewrite He in Hi. now apply (Hll r).
  - intro r. rewrite He. apply Hlo.
Qed.

Lemma streams_set_result_effect d c w :
  streams_ok props w -> streams_ok props (set_result_effect d c w).
Proof. intros [? ? ? ? ? ?]. constructor; assumption. Qed.

Lemma streams_set_count_effect d c w :
  streams_ok props w -> streams_ok props (set_count_effect d c w).
Proof. intros [? ? ? ? ? ?]. constructor; assumption. Qed.

Lemma streams_unsubscribe (id : nat) w :
  streams_ok props w -> streams_ok props (unsubscribe id w).
Proof.
  intros [Hfresh Hdis Hlf Hll Hlo Hcq].
  constructor; try assumption.
  - intros r i Hi. rewrite live_ids_unsubscribe in Hi.
    apply filter_In in Hi. now apply (Hfresh r).
  - intros i Hr Hc. rewrite live_ids_unsubscribe in Hr, Hc.
    apply filter_In in Hr, Hc. now apply (Hdis i).
  - intros r i j Hi Hj. rewrite live_ids_unsubscribe in Hj.
    apply filter_In in Hj. now apply (Hll r).
  - intros x Hx. simpl in Hx. apply filter_In in Hx. now apply Hcq.
Qed.

Lemma streams_opened (r : Role) (q : RxQuery) w :
  (r = CountRole -> query props = Some q) ->
  streams_ok props w -> streams_ok props (opened r q w).
Proof.
  intros Hq [Hfresh Hdis Hlf Hll Hlo Hcq].
  constructor; try assumption.
  - intros r' i Hi. rewrite live_ids_opened in Hi. simpl.
    destruct (Role_eqb r r'); [destruct Hi as [<- | Hi] |];
      try apply Hfresh in Hi; lia.
  - intros i Hr Hc. rewrite live_ids_opened in Hr, Hc.
    destruct r; simpl in Hr, Hc.
    + destruct Hr as [<- | Hr]; [| now apply (Hdis i)].
      apply Hfresh in Hc. lia.
    + destruct Hc as [<- | Hc]; [| now apply (Hdis i)].
      apply Hfresh in Hr. lia.
  - intros r' i Hi. simpl. apply Hlf in Hi. lia.
  - intros r' i j Hi Hj. rewrite live_ids_opened in Hj.
    destruct (Role_eqb r r'); [destruct Hj as [<- | Hj] |];
      try (now apply (Hll r')).
    apply Hlf in Hi. lia.
  - intros x [<- | Hx] Hrole; simpl in *; auto.
Qed.

Lemma streams_run_cleanup (c : option nat) w :
  streams_ok props w -> streams_ok props (run_cleanup c w).
Proof. destruct c; simpl; [apply streams_unsubscribe | trivial]. Qed.

Lemma streams_commit w :
  streams_ok props w -> streams_ok props (commit props w).
Proof.
  intro H. unfold commit, cleanup_phase, result_effect, count_effect, subscribe.
  assert (H1 : streams_ok props
                 (if result_due (w_state w) w
                  then run_cleanup (w_result_cleanup w) w else w)).
  { destruct (result_due (w_state w) w);
      [now apply streams_run_cleanup | trivial]. }
  set (w1 := if result_due (w_state w) w
             then run_cleanup (w_result_cleanup w) w else w) in *.
  destruct (result_due (w_state w) w), (count_due (w_state w) w),
    (query props) as [q |] eqn:Hq, (truthy (page (w_state w)));
    cbv beta iota zeta; simpl negb; cbv iota;
    repeat first
      [ assumption
      | apply streams_set_count_effect
      | apply streams_set_result_effect
      | apply streams_opened; [intro; try assumption; try discriminate |]
      | apply streams_dispatch; [discriminate |]
      | apply streams_run_cleanup ].
Qed.

(** *** The handles *)

Lemma handles_initial : handles_ok (initialWorld (T:=T) props).
Proof. constructor; simpl; trivial; discriminate. Qed.

Lemma handles_dispatch o (a : AnyAction T) w :
  handles_ok w -> handles_ok (dispatch o a w).
Proof. intros [? ? ? ?]. constructor; assumption. Qed.

Lemma cleanups_differ w (ir ic : nat) :
  handles_ok w -> streams_ok props w ->
  w_result_cleanup w = Some ir -> w_count_cleanup w = Some ic ->
  (ir =? ic)%nat = false /\ (ic =? ir)%nat = false.
Proof.
  intros Hh Hs Hr Hc.
  assert (Hne : ir <> ic).
  { intros ->. apply (ok_disjoint _ _ Hs ic).
    - rewrite (ok_result _ Hh), Hr. now left.
    - rewrite (ok_count _ Hh), Hc. now left. }
  split; apply Nat.eqb_neq; congruence.
Qed.

Lemma handles_commit w :
  w_mounted w = true ->
  handles_ok w -> streams_ok props w -> handles_ok (commit props w).
Proof.
  intros Hm Hh Hs.
  pose proof (fun ir ic => cleanups_differ w ir ic Hh Hs) as Hne.
  destruct Hh as [HR HC Hun Hcp].
  unfold commit, cleanup_phase, result_effect, count_effect, run_cleanup,
    subscribe.
  destruct (result_due (w_state w) w), (count_due (w_state w) w),
    (w_result_cleanup w) as [ir |] eqn:Hrc,
    (w_count_cleanup w) as [ic |] eqn:Hcc,
    (query props) as [q |],
    (truthy (page (w_state w))) eqn:Htr;
    cbv beta iota zeta; simpl negb; cbv iota;
    try destruct (Hne ir ic eq_refl eq_refl) as [Hne1 Hne2];
    constructor;
    rewrite ?live_ids_set_count_effect, ?live_ids_opened,
      ?live_ids_set_result_effect, ?live_ids_opened, ?live_ids_dispatch,
      ?live_ids_unsubscribe, ?live_ids_unsubscribe;
    simpl; rewrite ?HR, ?HC, ?Hrc, ?Hcc; simpl;
    repeat (progress (rewrite ?Nat.eqb_refl, ?Hne1, ?Hne2; simpl));
    try reflexivity; try congruence; try assumption;
    (intros id _; eexists; split; [reflexivity | assumption]).
Qed.

Lemma live_ids_unmount (r : Role) w :
  live_ids r (unmount w)
  = live_ids r (run_cleanup (w_count_cleanup w)
                  (run_cleanup (w_result_cleanup w) w)).
Proof. reflexivity. Qed.

Lemma handles_unmount w : handles_ok w -> handles_ok (unmount w).
Proof.
  intros [HR HC Hun Hcp].
  constructor; rewrite ?live_ids_unmount; try (simpl; easy).
  all: unfold run_cleanup;
    destruct (w_result_cleanup w) as [ir |], (w_count_cleanup w) as [ic |];
    rewrite ?live_ids_unsubscribe, ?live_ids_unsubscribe, ?HR, ?HC; simpl;
    try destruct (Nat.eqb_spec ir ic); try destruct (Nat.eqb_spec ic ir);
    simpl; rewrite ?Nat.eqb_refl; simpl; congruence.
Qed.

Lemma streams_unmount w :
  streams_ok props w -> streams_ok props (unmount w).
Proof.
  intro H.
  apply (streams_run_cleanup (w_result_cleanup w)) in H.
  apply (streams_run_cleanup (w_count_cleanup w)) in H.
  destruct H as [? ? ? ? ? ?]. constructor; assumption.
Qed.

Lemma handles_emit (id : nat) (e : Emission T) w :
  handles_ok w -> handles_ok (emit props id e w).
Proof.
  intro H. unfold emit. destruct (find_subscription id w); trivial.
  now apply handles_dispatch.
Qed.

Lemma streams_emit (id : nat) (e : Emission T) w :
  handles_ok w -> streams_ok props w -> streams_ok props (emit props id e w).
Proof.
  intros Hh Hs. unfold emit.
  destruct (find_subscription id w) as [x |] eqn:Hfind; trivial.
  apply find_subscription_live in Hfind. destruct Hfind as (Hin & Hid & Hlive).
  set (a := match sub_role x with
            | ResultRole => on_documents props e
            | CountRole => on_count props e
            end).
  assert (Hone : forall j, In j (live_ids (sub_role x) w) -> j = id).
  { intros j Hj.
    destruct (sub_role x);
      [rewrite (ok_result _ Hh) in Hj, Hlive
      | rewrite (ok_count _ Hh) in Hj, Hlive];
      match goal with
      | H : In _ (slot ?c) |- _ => destruct c; simpl in *
      end; intuition congruence. }
  assert (He : forall r,
             emissions r (w_log (dispatch (FromSubscription id (sub_role x))
                                   a w))
             = if Role_eqb (sub_role x) r
               then id :: emissions r (w_log w)
               else emissions r (w_log w)) by reflexivity.
  destruct Hs as [Hfresh Hdis Hlf Hll Hlo Hcq].
  constructor; try assumption.
  - intros r i Hi. rewrite He in Hi. simpl.
    destruct (Role_eqb (sub_role x) r) eqn:Hr; [| now apply (Hlf r)].
    destruct Hi as [<- | Hi]; [| now apply (Hlf r)].
    now apply (Hfresh (sub_role x)).
  - intros r i j Hi Hj. rewrite He in Hi.
    change (live_ids r (dispatch (FromSubscription id (sub_role x)) a w))
      with (live_ids r w) in Hj.
    destruct (Role_eqb (sub_role x) r) eqn:Hr; [| now apply (Hll r)].
    destruct Hi as [<- | Hi]; [| now apply (Hll r)].
    assert (sub_role x = r) as <- by (now destruct (sub_role x), r).
    apply Hone in Hj. lia.
  - intro r. rewrite He.
    destruct (Role_eqb (sub_role x) r) eqn:Hr; [| apply Hlo].
    assert (sub_role x = r) as <- by (now destruct (sub_role x), r).
    apply in_order_cons; [| apply Hlo].
    intros older Ho. now apply (Hll (sub_role x)).
Qed.

(** Every step keeps the discipline. *)
Lemma subscriptions_ok_step w (ev : Event T) :
  subscriptions_ok props w -> subscriptions_ok props (step props w ev).
Proof.
  intros [Hh Hs]. unfold step.
  destruct (w_mounted w) eqn:Hm; simpl; [| now split].
  destruct ev as [| id e | p | | |].
  - split; [now apply handles_commit | now apply streams_commit].
  - split; [now apply handles_emit | now apply streams_emit].
  - destruct (fetchPage props (w_state w) p); simpl; [| now split].
    split; [now apply handles_dispatch | now apply streams_dispatch].
  - destruct (fetchMore props (w_state w)); simpl; [| now split].
    split; [now apply handles_dispatch | now apply streams_dispatch].
  - destruct (resetList props (w_state w)); simpl; [| now split].
    split; [now apply handles_dispatch | now apply streams_dispatch].
  - split; [now apply handles_unmount | now apply streams_unmount].
Qed.

Lemma subscriptions_ok_run (evs : list (Event T)) :
  subscriptions_ok props (run props evs).
Proof.
  apply run_invariant.
  - split; [apply handles_initial | apply streams_initial].
  - apply subscriptions_ok_step.
Qed.


Lemma unmounted_no_live w :
  subscriptions_ok props w -> w_mounted w = false -> w_live w = [].
Proof.
  intros [Hh _] Hm. destruct (ok_unmounted _ Hh Hm) as [Hr Hc].
  apply live_none.
  - now rewrite (ok_result _ Hh), Hr.
  - now rewrite (ok_count _ Hh), Hc.
Qed.

Lemma at_most_one_live w (r : Role) :
  subscriptions_ok props w -> (List.length (live_ids r w) <= 1)%nat.
Proof.
  intros [Hh _].
  destruct r; [rewrite (ok_result _ Hh) | rewrite (ok_count _ Hh)];
    match goal with |- context [slot ?c] => destruct c end; simpl; lia.
Qed.

(** The cleanups of a commit release the subscription of every effect that
    is due, and no other. *)
Lemma released_before_replaced w :
  subscriptions_ok props w ->
  live_ids ResultRole (cleanup_phase (w_state w) w)
  = (if result_due (w_state w) w then [] else live_ids ResultRole w) /\
  live_ids CountRole (cleanup_phase (w_state w) w)
  = (if count_due (w_state w) w then [] else live_ids CountRole w).
Proof.
  intros [Hh Hs].
  pose proof (fun ir ic => cleanups_differ w ir ic Hh Hs) as Hne.
  destruct Hh as [HR HC _ _].
  unfold cleanup_phase, run_cleanup.
  destruct (result_due (w_state w) w), (count_due (w_state w) w),
    (w_result_cleanup w) as [ir |], (w_count_cleanup w) as [ic |];
    try destruct (Hne ir ic eq_refl eq_refl) as [Hne1 Hne2];
    rewrite ?live_ids_unsubscribe, ?live_ids_unsubscribe, ?HR, ?HC; simpl;
    repeat (progress (rewrite ?Nat.eqb_refl, ?Hne1, ?Hne2; simpl));
    split; reflexivity.
Qed.

(** C4: in every world the hook reaches, each role has at most one live
    subscription; the cleanups of a commit release the subscription of an
    effect that is due before its body opens the replacement; after an
    unmount no subscription is live, whatever follows; and along the log
    no subscription of a role delivers after one that was opened after
    it. *)
Theorem subscription_discipline (evs : list (Event T)) :
  (forall r, (List.length (live_ids r (run props evs)) <= 1)%nat) /\
  live_ids ResultRole
    (cleanup_phase (w_state (run props evs)) (run props evs))
  = (if result_due (w_state (run props evs)) (run props evs)
     then [] else live_ids ResultRole (run props evs)) /\
  live_ids CountRole
    (cleanup_phase (w_state (run props evs)) (run props evs))
  = (if count_due (w_state (run props evs)) (run props evs)
     then [] else live_ids CountRole (run props evs)) /\
  (forall evs', w_live (run props (evs ++ Unmount :: evs')) = []) /\
  (forall r, in_order (emissions r (w_log (run props evs)))).
Proof.
  pose proof (subscriptions_ok_run evs) as Hok.
  split; [intro r; now apply at_most_one_live |].
  destruct (released_before_replaced _ Hok) as [Hr Hc].
  split; [exact Hr |]. split; [exact Hc |]. split.
  - intro evs'. rewrite run_app. simpl.
    set (w := run props evs) in *.
    assert (Hm : w_mounted (step props w Unmount) = false).
    { unfold step. destruct (w_mounted w) eqn:Hm; simpl; trivial. }
    rewrite steps_unmounted by exact Hm.
    apply unmounted_no_live; [| exact Hm].
    now apply subscriptions_ok_step.
  - intro r. apply (ok_log_order _ _ (proj2 Hok)).
Qed.

(** *** The state changes only through the reducer *)

Lemma commit_state w :
  w_state (commit props w) = w_state w \/
  w_state (commit props w) = reducer (w_state w) QueryChanged.
Proof.
  unfold commit, cleanup_phase, result_effect, count_effect, run_cleanup,
    subscribe.
  destruct (result_due (w_state w) w), (count_due (w_state w) w),
    (w_result_cleanup w), (w_count_cleanup w), (query props),
    (truthy (page (w_state w))); simpl; auto.
Qed.

Lemma step_state w (ev : Event T) :
  w_state (step props w ev) = w_state w \/
  exists a, dispatchable props (w_state w) a /\
            w_state (step props w ev) = reducer (w_state w) a.
Proof.
  unfold step. destruct (w_mounted w); simpl; [| now left].
  destruct ev as [| id e | p | | |].
  - destruct (commit_state w) as [H | H]; [now left | right].
    exists QueryChanged. split; [now left | exact H].
  - unfold emit. destruct (find_subscription id w) as [x |]; [| now left].
    right. destruct (sub_role x); eexists; (split; [| reflexivity]).
    + right. left. now exists e.
    + right. right. left. now exists e.
  - destruct (fetchPage props (w_state w) p) as [a |] eqn:H; [| now left].
    right. exists a. split; [| reflexivity].
    right. right. right. left. now exists p.
  - destruct (fetchMore props (w_state w)) as [a |] eqn:H; [| now left].
    right. exists a. split; [| reflexivity]. unfold dispatchable. tauto.
  - destruct (resetList props (w_state w)) as [a |] eqn:H; [| now left].
    right. exists a. split; [| reflexivity]. unfold dispatchable. tauto.
  - left. unfold unmount, run_cleanup.
    destruct (w_result_cleanup w), (w_count_cleanup w); reflexivity.
Qed.

Lemma pageSize_nonneg :
  valid_options (options props) -> 0 <= pageSize_ props.
Proof.
  intros [H _]. unfold pageSize_.
  destruct (pageSize (options props)) as [n |]; [now apply H | lia].
Qed.

Lemma state_ok_initial :
  valid_options (options props) -> state_ok props (initialState (T:=T) props).
Proof.
  intro Hv. pose proof (pageSize_nonneg Hv) as Hps. destruct Hv as [_ Hsp].
  unfold state_ok, initialState. simpl.
  destruct (PaginationMode_eqb (paginationMode props) InfiniteScroll)
    eqn:Hmode; simpl.
  - repeat split; try lia. intros _. now exists 1.
  - apply PaginationMode_eqb_neq in Hmode.
    destruct (startingPage (options props)) as [p |]; simpl.
    + specialize (Hsp p eq_refl). repeat split; try lia. congruence.
    + repeat split; try lia. congruence.
Qed.

Lemma state_ok_reducer s (a : AnyAction T) :
  valid_options (options props) ->
  dispatchable props s a -> state_ok props s -> state_ok props (reducer s a).
Proof.
  intros Hv Ha (Hlimit & Hpage0 & Hpage1 & Hscroll).
  pose proof (pageSize_nonneg Hv) as Hps.
  destruct Ha as [-> | [[e ->] | [[e ->] | [[p Ha] | [Ha | Ha]]]]].
  - repeat split; assumption.
  - repeat split; assumption.
  - repeat split; assumption.
  - unfold fetchPage in Ha.
    destruct (PaginationMode_eqb (paginationMode props) Traditional)
      eqn:Hmode; simpl in Ha; [| discriminate].
    apply PaginationMode_eqb_eq in Hmode.
    destruct (p <? 0) eqn:Hneg; simpl in Ha; [discriminate |].
    destruct (num_gtb (Int p) (pageCount s)); [discriminate |].
    injection Ha as <-. apply Z.ltb_ge in Hneg.
    repeat split; simpl; trivial; congruence.
  - unfold fetchMore in Ha.
    destruct (PaginationMode_eqb (paginationMode props) InfiniteScroll)
      eqn:Hmode; simpl in Ha; [| discriminate].
    apply PaginationMode_eqb_eq in Hmode.
    destruct (isFetching s || isExhausted s); [discriminate |].
    injection Ha as <-.
    destruct (Hscroll Hmode) as [p Hp].
    assert (H1 : 1 <= p).
    { assert (Hne : paginationMode props <> Traditional) by congruence.
      specialize (Hpage1 Hne). rewrite Hp in Hpage1. exact Hpage1. }
    unfold state_ok. simpl. rewrite Hp. simpl.
    repeat split; try lia. intros _. now exists (p + 1).
  - unfold resetList in Ha.
    destruct (PaginationMode_eqb (paginationMode props) InfiniteScroll);
      simpl in Ha; [| discriminate].
    destruct (limit s <=? pageSize_ props); [discriminate |].
    injection Ha as <-. repeat split; assumption.
Qed.


(** *** The count subscription *)

Lemma live_ids_commit_count w :
  truthy (page (w_state w)) = false ->
  live_ids CountRole w = [] ->
  live_ids CountRole (commit props w) = [].
Proof.
  intros Htr Hlive.
  unfold commit, cleanup_phase, result_effect, count_effect, run_cleanup,
    subscribe.
  rewrite Htr.
  destruct (result_due (w_state w) w), (count_due (w_state w) w),
    (w_result_cleanup w), (w_count_cleanup w), (query props);
    cbv beta iota zeta; simpl negb; cbv iota;
    rewrite ?live_ids_set_count_effect, ?live_ids_set_result_effect,
      ?live_ids_opened, ?live_ids_dispatch, ?live_ids_unsubscribe,
      ?live_ids_unsubscribe, ?Hlive; reflexivity.
Qed.

Lemma log_commit w :
  w_log (commit props w) = w_log w \/
  w_log (commit props w) = (FromEffect, QueryChanged) :: w_log w.
Proof.
  unfold commit, cleanup_phase, result_effect, count_effect, run_cleanup,
    subscribe.
  destruct (result_due (w_state w) w), (count_due (w_state w) w),
    (w_result_cleanup w), (w_count_cleanup w), (query props),
    (truthy (page (w_state w))); simpl; auto.
Qed.

Lemma uncounted_initial :
  paginationMode props = NoPagination ->
  given (startingPage (options props)) = false ->
  uncounted (initialWorld (T:=T) props).
Proof.
  intros Hmode Hsp. unfold uncounted, initialWorld, initialState. simpl.
  rewrite Hmode. simpl. repeat split.
  destruct (startingPage (options props)) as [p |]; simpl in *; trivial.
Qed.

Lemma uncounted_step w (ev : Event T) :
  paginationMode props = NoPagination ->
  uncounted w -> uncounted (step props w ev).
Proof.
  intros Hmode (Hpage & Hcount & Hlive & Hlog).
  unfold step. destruct (w_mounted w); simpl; [| now repeat split].
  destruct ev as [| id e | p | | |].
  - unfold uncounted. rewrite live_ids_commit_count by assumption.
    destruct (commit_state w) as [-> | ->], (log_commit w) as [-> | ->];
      simpl; now repeat split.
  - unfold emit. destruct (find_subscription id w) as [x |] eqn:Hfind;
      [| now repeat split].
    apply find_subscription_live in Hfind. destruct Hfind as (_ & _ & Hin).
    destruct (sub_role x).
    + now repeat split.
    + rewrite Hlive in Hin. contradiction.
  - unfold fetchPage. rewrite Hmode. simpl. now repeat split.
  - unfold fetchMore. rewrite Hmode. simpl. now repeat split.
  - unfold resetList. rewrite Hmode. simpl. now repeat split.
  - unfold uncounted. rewrite live_ids_unmount. unfold unmount, run_cleanup.
    destruct (w_result_cleanup w), (w_count_cleanup w);
      rewrite ?live_ids_unsubscribe, ?live_ids_unsubscribe, ?Hlive;
      simpl; now repeat split.
Qed.

(** C2, as the hook has it: a count subscription is live only when the
    page the count effect last ran with is truthy, whatever the mode; and
    without pagination and without a starting page the hook never holds a
    count subscription, never dispatches [CountPages], and [pageCount]
    stays 0. *)
Theorem count_subscription_gate (evs : list (Event T)) :
  (forall id, In id (live_ids CountRole (run props evs)) ->
              exists p, w_count_deps (run props evs) = Some p /\
                        truthy p = true) /\
  (paginationMode props = NoPagination ->
   given (startingPage (options props)) = false ->
   uncounted (run props evs)).
Proof.
  split.
  - destruct (subscriptions_ok_run evs) as [Hh _].
    intros id Hid. rewrite (ok_count _ Hh) in Hid.
    destruct (w_count_cleanup (run props evs)) as [ic |] eqn:Hc;
      [| contradiction].
    now apply (ok_count_page _ Hh ic).
  - intros Hmode Hsp. apply run_invariant.
    + now apply uncounted_initial.
    + intros w ev. now apply uncounted_step.
Qed.

(** *** The count callback *)

Lemma ceil_div_spec (n d : Z) :
  1 <= d ->
  exists c, ceil_div n d = Int c /\ (c - 1) * d < n <= c * d.
Proof.
  intro Hd. unfold ceil_div.
  destruct (Z.eqb_spec d 0) as [-> | _]; [lia |].
  exists (- (- n / d)). split; [reflexivity |].
  pose proof (Z.div_mod (- n) d ltac:(lia)) as Hdm.
  pose proof (Z.mod_pos_bound (- n) d ltac:(lia)) as Hb.
  nia.
Qed.

(** C9: on every emission of [n] documents from a live count subscription
    of a hook with [pageSize >= 1], which observes the base query, the hook
    dispatches [CountPages c] with [c = ceil(n / pageSize)], that is
    [(c - 1) * pageSize < n <= c * pageSize]; afterwards [pageCount] is
    [c], and [isFetching] and [result] are as before. *)
Theorem count_emission (evs : list (Event T)) (id : nat)
  (x : Subscription) (e : Emission T) :
  1 <= pageSize_ props ->
  find_subscription id (run props evs) = Some x ->
  sub_role x = CountRole ->
  query props = Some (sub_query x) /\
  exists c,
    (c - 1) * pageSize_ props < len (normalize e) <= c * pageSize_ props /\
    w_log (step props (run props evs) (Emit id e))
    = (FromSubscription id CountRole, CountPages (Int c))
        :: w_log (run props evs) /\
    pageCount (w_state (step props (run props evs) (Emit id e))) = Int c /\
    isFetching (w_state (step props (run props evs) (Emit id e)))
    = isFetching (w_state (run props evs)) /\
    result (w_state (step props (run props evs) (Emit id e)))
    = result (w_state (run props evs)).
Proof.
  intros Hps Hfind Hrole.
  pose proof (subscriptions_ok_run evs) as Hok.
  set (w := run props evs) in *.
  destruct (find_subscription_live _ _ _ Hfind) as (Hin & _ & _).
  split; [now apply (ok_count_query _ _ (proj2 Hok)) |].
  assert (Hm : w_mounted w = true).
  { destruct (w_mounted w) eqn:Hm; trivial.
    rewrite (unmounted_no_live _ Hok Hm) in Hin. contradiction. }
  destruct (ceil_div_spec (len (normalize e)) (pageSize_ props) Hps)
    as (c & Hc & Hbounds).
  exists c. split; [exact Hbounds |].
  unfold step, emit. rewrite Hm, Hfind, Hrole. simpl.
  unfold on_count. fold (len (normalize e)). rewrite Hc. now repeat split.
Qed.


End ManagerProperties.

(** * The scenarios of the specification, run *)

(** The scenario of [Traditional] mode: twelve documents give three pages
    of five, and page 3 is fetched with [{skip: 10, limit: 5}]. *)
Example traditional_scenario :
  pageCount (w_state (run traditional_5 counted_12)) = Int 3 /\
  page (w_state (run traditional_5 (counted_12 ++ [CallFetchPage 3])))
  = Some (Int 3) /\
  map sub_query
    (w_live (run traditional_5 (counted_12 ++ [CallFetchPage 3; Commit])))
  = [characters; limit_ 5 (skip (Int 10) characters)].
Proof. repeat split. Qed.

(** The scenario of [InfiniteScroll] mode. *)
Example infinite_scroll_scenario :
  let s1 := w_state (run infinite_2 first_two) in
  let s2 := w_state
              (run infinite_2
                 (first_two ++
                  [CallFetchMore; Commit;
                   Emit 2%nat (Documents ["A"; "B"; "C"]%string)])) in
  (result s1 = [RxDoc "A"; RxDoc "B"]%string /\ isFetching s1 = false /\
   isExhausted s1 = false /\ limit s1 = 2) /\
  (result s2 = [RxDoc "A"; RxDoc "B"; RxDoc "C"]%string /\
   limit s2 = 4 /\ isExhausted s2 = true).
Proof. repeat split. Qed.

(** The scenario of [resetList]. *)
Example resetList_scenario :
  let s := w_state (run infinite_2 limit_6) in
  let s' := w_state (run infinite_2 (limit_6 ++ [CallResetList])) in
  limit s = 6 /\ result s' = [] /\ limit s' = 2 /\ isFetching s' = true.
Proof. repeat split. Qed.

(** * The claims at concrete mounts *)

(** In [InfiniteScroll] mode the page starts at 1, so the count effect
    subscribes: after the first commit of [infinite_2] the count
    subscription 1 is live, and three documents from it give two pages. *)
Example infinite_scroll_counts :
  paginationMode infinite_2 = InfiniteScroll /\
  live_ids (T:=string) CountRole (run infinite_2 [Commit]) = [1%nat] /\
  w_log (run infinite_2
           [Commit; Emit 1%nat (Documents ["A"; "B"; "C"]%string)])
  = [(FromSubscription 1 CountRole, CountPages (Int 2));
     (FromEffect, QueryChanged)] /\
  pageCount
    (w_state (run infinite_2
                [Commit; Emit 1%nat (Documents ["A"; "B"; "C"]%string)]))
  = Int 2.
Proof. repeat split. Qed.

(** C2 fails as stated: a hook in [InfiniteScroll] mode holds a count
    subscription and stores the page count it delivers. *)
Lemma count_subscription_outside_Traditional :
  ~ count_only_in_Traditional string.
Proof.
  intro H.
  destruct (H infinite_2
              [Commit; Emit 1%nat (Documents ["A"; "B"; "C"]%string)])
    as (_ & _ & Hcount).
  - discriminate.
  - discriminate Hcount.
Qed.

(** The gate at two mounts: the count subscription of [traditional_5] ran
    with a truthy page, and the hook mounted with [{}] stays uncounted. *)
Lemma count_subscription_gate_witness :
  (In 1%nat (live_ids (T:=string) CountRole (run traditional_5 [Commit])) /\
   exists p, w_count_deps (T:=string) (run traditional_5 [Commit]) = Some p /\
             truthy p = true) /\
  (paginationMode unpaginated = NoPagination /\
   given (startingPage (options unpaginated)) = false /\
   uncounted
     (run unpaginated [Commit; Emit 0%nat (Documents ["A"]%string)])).
Proof.
  split.
  - split; [now left |].
    apply (proj1 (count_subscription_gate traditional_5 [Commit]) 1%nat).
    now left.
  - split; [reflexivity |]. split; [reflexivity |].
    apply (proj2 (count_subscription_gate unpaginated
                    [Commit; Emit 0%nat (Documents ["A"]%string)]));
      reflexivity.
Defined.

(** C3 fails on the code: with the valid options
    [{ pageSize: 5, startingPage: 1 }], [fetchPage(0)] passes the guard
    [page < 0 || page > state.pageCount], and the page becomes 0; the
    result effect then asks for [skip = -5]. *)
Theorem fetchPage_accepts_page_0 :
  valid_options (options traditional_5) /\
  fetchPage traditional_5 (w_state (T:=string) (run traditional_5 [Commit])) 0
  = Some (FetchPage 0) /\
  page (w_state (T:=string) (run traditional_5 [Commit; CallFetchPage 0]))
  = Some (Int 0) /\
  map sub_query
    (w_live (T:=string) (run traditional_5 [Commit; CallFetchPage 0; Commit]))
  = [limit_ 5 (skip (Int (-5)) characters)] /\
  ~ limit_and_page_bounds string.
Proof.
  assert (Hv : valid_options (options traditional_5)).
  { split; intros n H; injection H as <-; lia. }
  repeat split; try exact (proj1 Hv); try exact (proj2 Hv).
  intro H. destruct (H traditional_5 [Commit; CallFetchPage 0] Hv) as [_ Hp].
  simpl in Hp. lia.
Qed.

(** With three pages counted, [fetchPage(3)] is accepted and
    [fetchPage(4)] is ignored. *)
Lemma fetchPage_effect_witness :
  let s := w_state (run traditional_5 counted_12) in
  ((paginationMode traditional_5 = Traditional /\ in_range 3 (pageCount s)) /\
   fetchPage traditional_5 s 3 = Some (FetchPage 3) /\
   page (dispatched s (fetchPage traditional_5 s 3)) = Some (Int 3)) /\
  (~ (paginationMode traditional_5 = Traditional /\
      in_range 4 (pageCount s)) /\
   dispatched s (fetchPage traditional_5 s 4) = s).
Proof.
  intro s.
  assert (H3 : paginationMode traditional_5 = Traditional /\
               in_range 3 (pageCount s)).
  { split; [reflexivity |]. split; simpl; lia. }
  assert (H4 : ~ (paginationMode traditional_5 = Traditional /\
                  in_range 4 (pageCount s))).
  { intros [_ [_ H]]. apply H. simpl. lia. }
  split.
  - split; [exact H3 |].
    destruct (proj1 (fetchPage_effect traditional_5 s 3) H3)
      as (Ha & _ & Hp & _).
    split; [exact Ha | exact Hp].
  - split; [exact H4 |].
    exact (proj2 (proj2 (fetchPage_effect traditional_5 s 4) H4)).
Defined.

(** After the first two documents [fetchMore] is accepted; while the
    first fetch is pending it is ignored. *)
Lemma fetchMore_effect_witness :
  let s := w_state (run infinite_2 first_two) in
  let s0 := initialState (T:=string) infinite_2 in
  ((paginationMode infinite_2 = InfiniteScroll /\
    isFetching s = false /\ isExhausted s = false) /\
   page (dispatched s (fetchMore infinite_2 s)) = Some (Int 2) /\
   limit (dispatched s (fetchMore infinite_2 s)) = 4) /\
  (~ (paginationMode infinite_2 = InfiniteScroll /\
      isFetching s0 = false /\ isExhausted s0 = false) /\
   dispatched s0 (fetchMore infinite_2 s0) = s0).
Proof.
  intros s s0.
  assert (H : paginationMode infinite_2 = InfiniteScroll /\
              isFetching s = false /\ isExhausted s = false).
  { repeat split. }
  assert (H0 : ~ (paginationMode infinite_2 = InfiniteScroll /\
                  isFetching s0 = false /\ isExhausted s0 = false)).
  { intros (_ & Hf & _). discriminate Hf. }
  split.
  - split; [exact H |].
    destruct (proj1 (fetchMore_effect infinite_2 s) H)
      as (_ & _ & _ & Hp & Hl & _).
    split; [exact (Hp 1 eq_refl) | exact Hl].
  - split; [exact H0 |].
    exact (proj2 (proj2 (fetchMore_effect infinite_2 s0) H0)).
Defined.

(** With a limit of 6 and a page size of 2 [resetList] is accepted; with
    a limit of 2 it is ignored. *)
Lemma resetList_effect_witness :
  let s := w_state (run infinite_2 limit_6) in
  let s0 := w_state (run infinite_2 first_two) in
  ((paginationMode infinite_2 = InfiniteScroll /\
    limit s > pageSize_ infinite_2) /\
   result (dispatched s (resetList infinite_2 s)) = [] /\
   limit (dispatched s (resetList infinite_2 s)) = 2 /\
   isFetching (dispatched s (resetList infinite_2 s)) = true) /\
  (~ (paginationMode infinite_2 = InfiniteScroll /\
      limit s0 > pageSize_ infinite_2) /\
   dispatched s0 (resetList infinite_2 s0) = s0).
Proof.
  intros s s0.
  assert (H : paginationMode infinite_2 = InfiniteScroll /\
              limit s > pageSize_ infinite_2).
  { split; reflexivity. }
  assert (H0 : ~ (paginationMode infinite_2 = InfiniteScroll /\
                  limit s0 > pageSize_ infinite_2)).
  { intros [_ Hl]. simpl in Hl. lia. }
  split.
  - split; [exact H |].
    exact (proj2 (proj1 (resetList_effect infinite_2 s) H)).
  - split; [exact H0 |].
    exact (proj2 (proj2 (resetList_effect infinite_2 s0) H0)).
Defined.

(** Page 3 of pages of 5: [{skip: 10, limit: 5}]. *)
Lemma materialize_Traditional_witness :
  let s := w_state (run traditional_5 (counted_12 ++ [CallFetchPage 3])) in
  paginationMode traditional_5 = Traditional /\
  page s = Some (Int 3) /\
  q_skip (materialize traditional_5 s characters) = Some (Int 10) /\
  q_limit (materialize traditional_5 s characters) = Some 5.
Proof.
  intro s. split; [reflexivity |]. split; [reflexivity |].
  destruct (materialize_Traditional traditional_5 s characters (Int 3)
              eq_refl eq_refl) as (_ & Hskip & Hlimit & _).
  split; [exact (Hskip 3 eq_refl) | exact Hlimit].
Defined.

(** Twelve documents on the count subscription of [traditional_5]. *)
Lemma count_emission_witness :
  1 <= pageSize_ traditional_5 /\
  find_subscription (T:=string) 1 (run traditional_5 [Commit])
  = Some (mkSubscription 1 CountRole characters) /\
  exists c,
    (c - 1) * 5 < 12 <= c * 5 /\
    pageCount
      (w_state
         (step traditional_5 (run traditional_5 [Commit])
            (Emit 1%nat (Documents twelve)))) = Int c.
Proof.
  split; [unfold pageSize_; simpl; lia |]. split; [reflexivity |].
  destruct (count_emission traditional_5 [Commit] 1%nat
              (mkSubscription 1 CountRole characters) (Documents twelve))
    as (_ & c & Hbounds & _ & Hcount & _).
  - unfold pageSize_. simpl. lia.
  - reflexivity.
  - reflexivity.
  - exists c. split; [exact Hbounds | exact Hcount].
Defined.

(** * Further properties *)

(** ** The pagination mode *)

Lemma given_true (n : option Z) :
  given n = true <-> exists z, n = Some z /\ z <> 0.
Proof.
  destruct n as [z |]; simpl.
  - rewrite negb_true_iff, Z.eqb_neq. split.
    + intro H. now exists z.
    + intros (z' & Hz & Hne). now injection Hz as ->.
  - split; [discriminate | intros (z & Hz & _); discriminate].
Qed.

Lemma given_false (n : option Z) :
  given n = false <-> n = None \/ n = Some 0.
Proof.
  destruct n as [z |]; simpl.
  - rewrite negb_false_iff, Z.eqb_eq. split.
    + intros ->. now right.
    + intros [H | H]; [discriminate | now injection H].
  - split; [now left | reflexivity].
Qed.

(** X1: the mode is [None] exactly when the page size is absent or 0,
    whatever the starting page; otherwise it is [InfiniteScroll] exactly
    when the starting page is absent or 0, and [Traditional] exactly when
    the starting page is given and not 0. *)
Theorem getPaginationMode_cases (o : UseRxQueryOptions) :
  (getPaginationMode o = NoPagination <->
   pageSize o = None \/ pageSize o = Some 0) /\
  (getPaginationMode o = InfiniteScroll <->
   (exists n, pageSize o = Some n /\ n <> 0) /\
   (startingPage o = None \/ startingPage o = Some 0)) /\
  (getPaginationMode o = Traditional <->
   (exists n, pageSize o = Some n /\ n <> 0) /\
   (exists p, startingPage o = Some p /\ p <> 0)).
Proof.
  rewrite <- given_false, <- !given_true, <- given_false.
  unfold getPaginationMode.
  destruct (given (pageSize o)), (given (startingPage o)); simpl;
    repeat split; try discriminate; try tauto;
    intros [? ?]; discriminate.
Qed.

Section StateLevel.

Context {T : Type}.
Variable props : Props.
Implicit Types (s : RxState T) (w : World T).

(** ** The dependencies of the callbacks and of the effects *)

(** X2: each callback reads of the state only what its [useCallback]
    lists: two renders whose states agree on [pageCount] give the same
    [fetchPage], on [isFetching] and [isExhausted] the same [fetchMore],
    on [limit] the same [resetList]. *)
Theorem callbacks_read_their_deps s1 s2 :
  (pageCount s1 = pageCount s2 ->
   forall p, fetchPage props s1 p = fetchPage props s2 p) /\
  (isFetching s1 = isFetching s2 -> isExhausted s1 = isExhausted s2 ->
   fetchMore props s1 = fetchMore props s2) /\
  (limit s1 = limit s2 -> resetList props s1 = resetList props s2).
Proof.
  unfold fetchPage, fetchMore, resetList. repeat split.
  - intros H p. now rewrite H.
  - intros Hf He. now rewrite Hf, He.
  - intros H. now rewrite H.
Qed.

(** X3: each effect reads of the state only what its dependency array
    lists: the result effect run for two states that agree on [limit] and
    [page] leaves the same world, and so does the count effect for two
    states that agree on [page]. *)
Theorem effects_read_their_deps s1 s2 w :
  (limit s1 = limit s2 -> page s1 = page s2 ->
   result_effect props s1 w = result_effect props s2 w) /\
  (page s1 = page s2 -> count_effect props s1 w = count_effect props s2 w).
Proof.
  split.
  - intros Hl Hp. unfold result_effect, materialize. now rewrite Hl, Hp.
  - intros Hp. unfold count_effect. now rewrite Hp.
Qed.

(** ** The callbacks, called twice *)


(** ** The materialized query in every mode *)

(** X5: the sort is the same in every mode and state: a [sortBy] that is
    given and not empty sorts by it in the given order, [desc] when none is
    given; otherwise the order of the base query is kept.  The selection
    is never changed. *)
Theorem materialize_sort s (q : RxQuery) :
  q_sort (materialize props s q)
  = match sortBy (options props) with
    | Some by_ =>
        if (by_ =? "")%string then q_sort q
        else Some (by_, match sortOrder (options props) with
                        | Some o => o
                        | None => desc
                        end)
    | None => q_sort q
    end /\
  selector (materialize props s q) = selector q.
Proof.
  unfold materialize, sortOrder_.
  destruct (PaginationMode_eqb (paginationMode props) Traditional),
    (PaginationMode_eqb (paginationMode props) InfiniteScroll),
    (sortBy (options props)) as [by_ |];
    try destruct (by_ =? "")%string; split; reflexivity.
Qed.

(** X6: outside [Traditional] mode the hook never sets a skip; in
    [InfiniteScroll] mode the limit of the query is [state.limit], and
    without pagination the limit of the base query is kept. *)
Theorem materialize_bounds s (q : RxQuery) :
  (paginationMode props = InfiniteScroll ->
   q_skip (materialize props s q) = q_skip q /\
   q_limit (materialize props s q) = Some (limit s)) /\
  (paginationMode props = NoPagination ->
   q_skip (materialize props s q) = q_skip q /\
   q_limit (materialize props s q) = q_limit q).
Proof.
  unfold materialize.
  split; intros ->; simpl;
    destruct (sortBy (options props)) as [by_ |];
    try destruct (by_ =? "")%string; split; reflexivity.
Qed.

(** ** Exhaustion *)

(** X7: once [isExhausted] holds, [fetchMore] stays ignored through every
    sequence of actions without a [FetchSuccess], a [Reset] included. *)
Theorem exhausted_blocks_fetchMore s (acts : list (AnyAction T)) :
  isExhausted s = true ->
  forallb (fun a => negb (is_FetchSuccess a)) acts = true ->
  fetchMore props (fold_left reducer acts s) = None.
Proof.
  intros He Hacts. unfold fetchMore.
  rewrite (isExhausted_kept_fold acts s Hacts), He.
  destruct (PaginationMode_eqb (paginationMode props) InfiniteScroll);
    simpl; [now rewrite orb_true_r | reflexivity].
Qed.

(** ** The two reducers *)

(** X8: on the three actions that [useRxData] has, the reducer of
    [useRxQuery] does to [result], [isFetching], [isExhausted] and [limit]
    what the reducer of [useRxData] does; its other three actions leave
    [result], [isExhausted] and [limit] alone. *)
Theorem reducer_extends_useRxData s (a : AnyAction T) :
  (forall a', forget_action a = Some a' ->
              forget (reducer s a) = UseRxData.reducer (forget s) a') /\
  (forget_action a = None ->
   result (reducer s a) = result s /\
   isExhausted (reducer s a) = isExhausted s /\
   limit (reducer s a) = limit s).
Proof.
  destruct a; simpl; split; try discriminate;
    try (intros a' H; injection H as <-; reflexivity);
    try (intros _; repeat split).
Qed.

End StateLevel.

Section Reachable.

Context {T : Type}.
Variable props : Props.
Implicit Types (s : RxState T) (w : World T).

(** ** Invariants of the reachable states *)

(** A property of the initial state that every dispatchable action keeps
    holds in every state the hook reaches. *)
Lemma state_invariant (P : RxState T -> Prop) :
  P (initialState props) ->
  (forall s a, dispatchable props s a -> P s -> P (reducer s a)) ->
  forall evs, P (w_state (run props evs)).
Proof.
  intros Hinit Hstep.
  apply (run_invariant props (fun w => P (w_state w))); [exact Hinit |].
  intros w ev Hw. destruct (step_state props w ev) as [-> | (a & Ha & ->)];
    auto.
Qed.

Lemma InfiniteScroll_pageSize :
  paginationMode props = InfiniteScroll -> pageSize_ props <> 0.
Proof.
  unfold paginationMode, getPaginationMode, pageSize_.
  destruct (pageSize (options props)) as [n |]; simpl; [| discriminate].
  destruct (Z.eqb_spec n 0); simpl; [discriminate | trivial].
Qed.

Lemma other_pageSize :
  paginationMode props = NoPagination -> pageSize_ props = 0.
Proof.
  unfold paginationMode, getPaginationMode, pageSize_.
  destruct (pageSize (options props)) as [n |]; simpl; [| reflexivity].
  destruct (Z.eqb_spec n 0); simpl; [trivial |].
  destruct (given (startingPage (options props))); discriminate.
Qed.

(** Which callbacks can dispatch in which mode. *)
Lemma fetchPage_mode s (p : Z) (a : AnyAction T) :
  fetchPage props s p = Some a ->
  paginationMode props = Traditional /\ a = FetchPage p /\ 0 <= p.
Proof.
  unfold fetchPage.
  destruct (PaginationMode_eqb (paginationMode props) Traditional) eqn:Hm;
    simpl; [| discriminate].
  destruct (p <? 0) eqn:Hp; simpl; [discriminate |].
  destruct (num_gtb (Int p) (pageCount s)); [discriminate |].
  intro H. injection H as <-. apply PaginationMode_eqb_eq in Hm.
  apply Z.ltb_ge in Hp. auto.
Qed.

Lemma fetchMore_mode s (a : AnyAction T) :
  fetchMore props s = Some a ->
  paginationMode props = InfiniteScroll /\ a = FetchMore (pageSize_ props) /\
  isFetching s = false /\ isExhausted s = false.
Proof.
  unfold fetchMore.
  destruct (PaginationMode_eqb (paginationMode props) InfiniteScroll) eqn:Hm;
    simpl; [| discriminate].
  destruct (isFetching s), (isExhausted s); simpl; try discriminate.
  intro H. injection H as <-. apply PaginationMode_eqb_eq in Hm. auto.
Qed.

Lemma resetList_mode s (a : AnyAction T) :
  resetList props s = Some a ->
  paginationMode props = InfiniteScroll /\ a = Reset (pageSize_ props) /\
  pageSize_ props < limit s.
Proof.
  unfold resetList.
  destruct (PaginationMode_eqb (paginationMode props) InfiniteScroll) eqn:Hm;
    simpl; [| discriminate].
  destruct (limit s <=? pageSize_ props) eqn:Hl; [discriminate |].
  intro H. injection H as <-. apply PaginationMode_eqb_eq in Hm.
  apply Z.leb_gt in Hl. auto.
Qed.

(** X9: in [InfiniteScroll] mode, in every reachable state the page is an
    integer [p] and the limit is [k * pageSize] for some [k] from 1 to
    [p]: [fetchMore] raises both, [resetList] brings the limit back to one
    page and leaves the page where it is. *)
Theorem InfiniteScroll_limit_and_page (evs : list (Event T)) :
  paginationMode props = InfiniteScroll ->
  exists p k,
    page (w_state (run props evs)) = Some (Int p) /\
    limit (w_state (run props evs)) = k * pageSize_ props /\
    1 <= k <= p.
Proof.
  intro Hmode. revert evs.
  apply (state_invariant
           (fun s => exists p k,
                page s = Some (Int p) /\
                limit s = k * pageSize_ props /\ 1 <= k <= p)).
  - exists 1, 1. unfold initialState. rewrite Hmode.
    cbn [PaginationMode_eqb page limit]. repeat split; lia.
  - intros s a Ha (p & k & Hp & Hl & Hk).
    destruct Ha as [-> | [[e ->] | [[e ->] | [[p' Ha] | [Ha | Ha]]]]];
      try (exists p, k; repeat split; trivial; lia).
    + apply fetchPage_mode in Ha. destruct Ha as [Ha _]. congruence.
    + apply fetchMore_mode in Ha. destruct Ha as (_ & -> & _).
      exists (p + 1), (k + 1). cbn [reducer page limit]. rewrite Hp, Hl.
      cbn [to_number num_add]. repeat split; lia.
    + apply resetList_mode in Ha. destruct Ha as (_ & -> & _).
      exists p, 1. cbn [reducer page limit]. repeat split; trivial; lia.
Qed.

(** X10: outside [InfiniteScroll] mode the limit is 0 in every reachable
    state, so every [FetchSuccess] reports exhaustion: whenever the hook
    is not fetching, [isExhausted] is true. *)
Theorem unlimited_is_exhausted (evs : list (Event T)) :
  paginationMode props <> InfiniteScroll ->
  limit (w_state (run props evs)) = 0 /\
  (isFetching (w_state (run props evs)) = false ->
   isExhausted (w_state (run props evs)) = true).
Proof.
  intro Hmode. revert evs.
  apply (state_invariant
           (fun s => limit s = 0 /\
                     (isFetching s = false -> isExhausted s = true))).
  - unfold initialState.
    apply PaginationMode_eqb_neq in Hmode. rewrite Hmode. simpl.
    split; [reflexivity | discriminate].
  - intros s a Ha [Hl Hf].
    destruct Ha as [-> | [[e ->] | [[e ->] | [[p' Ha] | [Ha | Ha]]]]];
      simpl; try (split; [exact Hl | discriminate]).
    + rewrite Hl. simpl. split; reflexivity.
    + split; assumption.
    + apply fetchPage_mode in Ha. destruct Ha as (_ & -> & _). simpl.
      split; [exact Hl | discriminate].
    + apply fetchMore_mode in Ha. destruct Ha as [Ha _]. congruence.
    + apply resetList_mode in Ha. destruct Ha as [Ha _]. congruence.
Qed.


(** X12: with a page size of at least 1 the page count is a non-negative
    integer in every reachable state. *)
Theorem pageCount_natural (evs : list (Event T)) :
  1 <= pageSize_ props ->
  exists c, pageCount (w_state (run props evs)) = Int c /\ 0 <= c.
Proof.
  intro Hps. revert evs.
  apply (state_invariant (fun s => exists c, pageCount s = Int c /\ 0 <= c)).
  - exists 0. split; [reflexivity | lia].
  - intros s a Ha Hs.
    destruct Ha as [-> | [[e ->] | [[e ->] | [[p' Ha] | [Ha | Ha]]]]];
      simpl; trivial.
    + destruct (ceil_div_spec (len (normalize e)) (pageSize_ props) Hps)
        as (c & Hc & Hb).
      exists c. split; [exact Hc |].
      assert (0 <= len (normalize e)) by (unfold len; lia). nia.
    + apply fetchPage_mode in Ha. now destruct Ha as (_ & -> & _).
    + apply fetchMore_mode in Ha. now destruct Ha as (_ & -> & _).
    + apply resetList_mode in Ha. now destruct Ha as (_ & -> & _).
Qed.

End Reachable.

Section Manager.

Context {T : Type}.
Variable props : Props.
Implicit Types (s : RxState T) (w : World T).

(** ** Commits that change nothing *)

Lemma value_same_refl (v : option num) : value_same v v = true.
Proof. now apply value_same_eq. Qed.

Lemma commit_settled w : settled w -> commit props w = w.
Proof.
  intros [Hr Hc]. unfold commit, cleanup_phase. now rewrite Hr, Hc.
Qed.

Lemma settled_commit w : settled (commit props w).
Proof.
  unfold settled, commit, cleanup_phase, result_effect, count_effect,
    run_cleanup, subscribe.
  destruct (result_due (w_state w) w) eqn:Hrd,
    (count_due (w_state w) w) eqn:Hcd;
    unfold result_due, count_due in *;
    destruct (w_result_cleanup w), (w_count_cleanup w), (query props),
      (truthy (page (w_state w)));
    simpl; rewrite ?Z.eqb_refl, ?value_same_refl; simpl; auto.
Qed.

Lemma settled_dispatch w o (a : AnyAction T) :
  limit (reducer (w_state w) a) = limit (w_state w) ->
  page (reducer (w_state w) a) = page (w_state w) ->
  settled w -> settled (dispatch o a w).
Proof.
  intros Hl Hp [Hr Hc]. unfold settled, result_due, count_due in *.
  simpl. now rewrite Hl, Hp.
Qed.

Lemma settled_emit w (id : nat) (e : Emission T) :
  settled w -> settled (emit props id e w).
Proof.
  intro H. unfold emit. destruct (find_subscription id w) as [x |]; trivial.
  destruct (sub_role x); now apply settled_dispatch.
Qed.

Lemma step_Commit w :
  w_mounted w = true -> step props w Commit = commit props w.
Proof. intro H. unfold step. now rewrite H. Qed.

Lemma step_Emit w (id : nat) (e : Emission T) :
  w_mounted w = true -> step props w (Emit id e) = emit props id e w.
Proof. intro H. unfold step. now rewrite H. Qed.

Lemma mounted_commit w : w_mounted (commit props w) = w_mounted w.
Proof.
  unfold commit, cleanup_phase, result_effect, count_effect, run_cleanup,
    subscribe.
  destruct (result_due (w_state w) w), (count_due (w_state w) w),
    (w_result_cleanup w), (w_count_cleanup w), (query props),
    (truthy (page (w_state w))); reflexivity.
Qed.

Lemma mounted_emit w (id : nat) (e : Emission T) :
  w_mounted (emit props id e w) = w_mounted w.
Proof. unfold emit. now destruct (find_subscription id w). Qed.

(** X13: a commit right after a commit does nothing: the [QueryChanged]
    that the result effect dispatches does not make an effect due again,
    and no subscription is closed or opened. *)
Theorem commit_twice w :
  step props (step props w Commit) Commit = step props w Commit.
Proof.
  destruct (w_mounted w) eqn:Hm.
  - rewrite (step_Commit w Hm), step_Commit
      by (now rewrite mounted_commit).
    apply commit_settled, settled_commit.
  - now rewrite !(step_unmounted props w _ Hm).
Qed.

(** X14: results that arrive cause no resubscription: after a commit, an
    emission of either subscription leaves no effect due, so the next
    commit does nothing. *)
Theorem emission_keeps_subscriptions w (id : nat) (e : Emission T) :
  step props (step props (step props w Commit) (Emit id e)) Commit
  = step props (step props w Commit) (Emit id e).
Proof.
  destruct (w_mounted w) eqn:Hm.
  - rewrite (step_Commit w Hm), step_Emit by (now rewrite mounted_commit).
    rewrite step_Commit by (now rewrite mounted_emit, mounted_commit).
    apply commit_settled, settled_emit, settled_commit.
  - now rewrite !(step_unmounted props w _ Hm).
Qed.

(** ** The query of the live result subscription *)

Lemma materialize_ext s1 s2 (q : RxQuery) :
  limit s1 = limit s2 -> page s1 = page s2 ->
  materialize props s1 q = materialize props s2 q.
Proof. intros Hl Hp. unfold materialize. now rewrite Hl, Hp. Qed.

Lemma live_ids_none (r : Role) w (x : Subscription) :
  live_ids r w = [] -> In x (w_live w) -> sub_role x = r -> False.
Proof.
  unfold live_ids. intros Hnone Hin Hr.
  assert (Hx : In (sub_id x)
                 (map sub_id
                    (filter (fun y => Role_eqb (sub_role y) r) (w_live w)))).
  { apply in_map, filter_In. split; [exact Hin |]. rewrite Hr. now destruct r. }
  now rewrite Hnone in Hx.
Qed.

Lemma in_sync_initial : in_sync props (initialWorld (T:=T) props).
Proof. intros x []. Qed.

Lemma in_sync_keep w w' :
  (forall x, In x (w_live w') -> In x (w_live w)) ->
  w_result_deps w' = w_result_deps w ->
  in_sync props w -> in_sync props w'.
Proof.
  intros Hlive Hdeps H x Hx Hr.
  destruct (H x (Hlive x Hx) Hr) as (q & s & Hq & Hd & Hs).
  exists q, s. now rewrite Hdeps.
Qed.

Lemma in_unsubscribe (id : nat) w (x : Subscription) :
  In x (w_live (unsubscribe id w)) -> In x (w_live w).
Proof. simpl. intro H. now apply filter_In in H. Qed.

Lemma in_run_cleanup (c : option nat) w (x : Subscription) :
  In x (w_live (run_cleanup c w)) -> In x (w_live w).
Proof. destruct c; simpl; trivial. intro H. now apply filter_In in H. Qed.

Lemma in_sync_commit w :
  handles_ok w -> in_sync props w -> in_sync props (commit props w).
Proof.
  intros Hh Hsync.
  assert (Hgone : result_due (w_state w) w = true ->
            forall x, In x (w_live (run_cleanup (w_result_cleanup w) w)) ->
                      sub_role x = ResultRole -> False).
  { intros _ x Hx Hr.
    apply (live_ids_none ResultRole (run_cleanup (w_result_cleanup w) w) x);
      trivial.
    unfold run_cleanup.
    destruct (w_result_cleanup w) as [ir |] eqn:Hc.
    - rewrite live_ids_unsubscribe, (ok_result _ Hh), Hc. apply filter_self.
    - now rewrite (ok_result _ Hh), Hc. }
  unfold commit, cleanup_phase, result_effect, count_effect, subscribe.
  destruct (result_due (w_state w) w) eqn:Hrd.
  - specialize (Hgone eq_refl).
    set (w1 := run_cleanup (w_result_cleanup w) w) in *.
    set (w2 := if count_due (w_state w) w
               then run_cleanup (w_count_cleanup w) w1 else w1).
    assert (H2 : forall x, In x (w_live w2) -> In x (w_live w1)).
    { intros x. unfold w2. destruct (count_due (w_state w) w); trivial.
      apply in_run_cleanup. }
    destruct (count_due (w_state w) w), (query props) as [q |] eqn:Hq,
      (truthy (page (w_state w)));
      cbv beta iota zeta; simpl negb; cbv iota;
      intros x Hx Hr; simpl in Hx;
      repeat match goal with
        | H : _ \/ _ |- _ => destruct H as [<- | H]
        end;
      try discriminate;
      try (exfalso; apply (Hgone x); [now apply H2 | exact Hr]);
      try (exfalso; apply (Hgone x); [exact Hx | exact Hr]);
      exists q, (w_state w); repeat split; assumption.
  - set (w2 := if count_due (w_state w) w
               then run_cleanup (w_count_cleanup w) w else w).
    assert (H2 : forall x, In x (w_live w2) -> In x (w_live w)).
    { intros x. unfold w2. destruct (count_due (w_state w) w); trivial.
      apply in_run_cleanup. }
    assert (Hd2 : w_result_deps w2 = w_result_deps w).
    { unfold w2. destruct (count_due (w_state w) w); trivial.
      now destruct (w_count_cleanup w). }
    destruct (count_due (w_state w) w), (query props) as [q |] eqn:Hq,
      (truthy (page (w_state w)));
      cbv beta iota zeta; simpl negb; cbv iota;
      intros x Hx Hr; simpl in Hx;
      repeat match goal with
        | H : _ \/ _ |- _ => destruct H as [<- | H]
        end;
      try discriminate;
      destruct (Hsync x (H2 x Hx) Hr) as (q' & s & Hq' & Hd & Hs);
      exists q', s; simpl; rewrite ?Hd2; auto.
Qed.

Lemma in_sync_step w (ev : Event T) :
  subscriptions_ok props w -> in_sync props w ->
  in_sync props (step props w ev).
Proof.
  intros Hok Hsync. pose proof (subscriptions_ok_step props w ev Hok) as Hok'.
  unfold step in *. destruct (w_mounted w) eqn:Hm; simpl in *; trivial.
  destruct ev as [| id e | p | | |].
  - apply in_sync_commit; [exact (proj1 Hok) | exact Hsync].
  - unfold emit. now destruct (find_subscription id w).
  - now destruct (fetchPage props (w_state w) p).
  - now destruct (fetchMore props (w_state w)).
  - now destruct (resetList props (w_state w)).
  - intros x Hx. rewrite (unmounted_no_live props _ Hok' eq_refl) in Hx.
    contradiction.
Qed.

Lemma in_sync_run (evs : list (Event T)) : in_sync props (run props evs).
Proof.
  assert (H : subscriptions_ok props (run props evs) /\
              in_sync props (run props evs)).
  { apply (run_invariant props
             (fun w => subscriptions_ok props w /\ in_sync props w)).
    - split; [| apply in_sync_initial].
      split; [apply handles_initial | apply streams_initial].
    - intros w ev [Hok Hs]. split.
      + now apply subscriptions_ok_step.
      + now apply in_sync_step. }
  apply H.
Qed.

(** A result effect that ran on a valid query holds its cleanup. *)
Lemma result_cleanup_held (evs : list (Event T)) :
  query props <> None ->
  w_result_deps (run props evs) <> None ->
  w_result_cleanup (run props evs) <> None.
Proof.
  intro Hq.
  apply (run_invariant props
           (fun w => w_result_deps w <> None -> w_result_cleanup w <> None)).
  - simpl. congruence.
  - intros w ev Hw. unfold step.
    destruct (w_mounted w); simpl; trivial.
    destruct ev as [| id e | p | | |].
    + unfold commit, cleanup_phase, result_effect, count_effect, run_cleanup,
        subscribe.
      destruct (result_due (w_state w) w), (count_due (w_state w) w),
        (w_result_cleanup w) eqn:Hrc, (w_count_cleanup w), (query props),
        (truthy (page (w_state w))); simpl in *; rewrite ?Hrc;
        try assumption; congruence.
    + unfold emit. now destruct (find_subscription id w).
    + now destruct (fetchPage props (w_state w) p).
    + now destruct (fetchMore props (w_state w)).
    + now destruct (resetList props (w_state w)).
    + simpl. congruence.
Qed.

Lemma one_id (r : Role) (l : list Subscription) (id : nat) :
  map sub_id (filter (fun x => Role_eqb (sub_role x) r) l) = [id] ->
  exists x, filter (fun x => Role_eqb (sub_role x) r) l = [x] /\
            In x l /\ sub_role x = r.
Proof.
  intro H.
  destruct (filter (fun x => Role_eqb (sub_role x) r) l) as [| x [| y rest]]
    eqn:Hf; try discriminate.
  exists x. split; [reflexivity |].
  assert (Hin : In x (filter (fun x => Role_eqb (sub_role x) r) l))
    by (rewrite Hf; now left).
  apply filter_In in Hin. destruct Hin as [Hin Hr].
  split; [exact Hin |]. now destruct (sub_role x), r.
Qed.

(** In a reachable world without a due result effect, the live result
    subscription is the one for the current state. *)
Lemma result_query_settled (evs : list (Event T)) (q : RxQuery) :
  query props = Some q ->
  result_due (w_state (run props evs)) (run props evs) = false ->
  map sub_query
    (filter (fun x => Role_eqb (sub_role x) ResultRole)
       (w_live (run props evs)))
  = [materialize props (w_state (run props evs)) q].
Proof.
  intros Hq Hdue.
  pose proof (subscriptions_ok_run props evs) as [Hh _].
  pose proof (in_sync_run evs) as Hsync.
  pose proof (result_cleanup_held evs) as Hheld.
  set (w := run props evs) in *.
  unfold result_due in Hdue.
  destruct (w_result_deps w) as [[l p] |] eqn:Hd; [| discriminate].
  apply negb_false_iff, andb_true_iff in Hdue. destruct Hdue as [Hl Hp].
  apply Z.eqb_eq in Hl. apply value_same_eq in Hp.
  destruct (w_result_cleanup w) as [id |] eqn:Hc;
    [| exfalso; apply Hheld; congruence].
  pose proof (ok_result _ Hh) as Hids. rewrite Hc in Hids.
  destruct (one_id ResultRole (w_live w) id Hids) as (x & Hx & Hin & Hr).
  rewrite Hx. simpl.
  destruct (Hsync x Hin Hr) as (q' & s & Hq' & Hd' & Hs).
  rewrite Hs. f_equal.
  assert (q' = q) as -> by congruence.
  rewrite Hd in Hd'. injection Hd' as Hl' Hp'.
  apply materialize_ext; congruence.
Qed.

(** X15: after every commit of a mounted hook with a valid query, exactly
    one result subscription is live, and it observes the query
    materialized from the current state. *)
Theorem result_subscription_in_sync (evs : list (Event T)) (q : RxQuery) :
  query props = Some q ->
  w_mounted (run props evs) = true ->
  map sub_query
    (filter (fun x => Role_eqb (sub_role x) ResultRole)
       (w_live (step props (run props evs) Commit)))
  = [materialize props (w_state (step props (run props evs) Commit)) q].
Proof.
  intros Hq Hm. rewrite <- run_snoc.
  apply result_query_settled; [exact Hq |].
  rewrite run_snoc, (step_Commit _ Hm). apply settled_commit.
Qed.

(** X16: [fetchPage p] for the page the hook is on, when accepted, sets
    [isFetching] but changes no dependency of an effect: the next commit
    opens no subscription and dispatches nothing, so [isFetching] stays
    true until the live subscription emits again. *)
Theorem fetchPage_same_page w (p : Z) (a : AnyAction T) :
  w_mounted w = true ->
  settled w ->
  page (w_state w) = Some (Int p) ->
  fetchPage props (w_state w) p = Some a ->
  step props (step props w (CallFetchPage p)) Commit
  = step props w (CallFetchPage p) /\
  w_live (step props w (CallFetchPage p)) = w_live w /\
  isFetching (w_state (step props w (CallFetchPage p))) = true /\
  w_log (step props w (CallFetchPage p))
  = (FromFacade, FetchPage p) :: w_log w.
Proof.
  intros Hm Hs Hp Ha.
  destruct (fetchPage_mode props _ _ _ Ha) as (_ & -> & _).
  assert (Hstep : step props w (CallFetchPage p)
                  = dispatch FromFacade (FetchPage p) w).
  { unfold step. now rewrite Hm, Ha. }
  rewrite Hstep. repeat split.
  rewrite step_Commit by exact Hm.
  apply commit_settled, settled_dispatch; trivial. simpl. now rewrite Hp.
Qed.

End Manager.

Section Manager2.

Context {T : Type}.
Variable props : Props.
Implicit Types (s : RxState T) (w : World T).

(** ** Resubscription *)

Lemma commit_due w (q : RxQuery) :
  query props = Some q ->
  result_due (w_state w) w = true ->
  w_result_cleanup (commit props w) = Some (w_next w) /\
  w_state (commit props w) = reducer (w_state w) QueryChanged.
Proof.
  intros Hq Hdue.
  unfold commit, cleanup_phase, result_effect, count_effect, run_cleanup,
    subscribe.
  rewrite Hq, Hdue.
  destruct (count_due (w_state w) w), (w_result_cleanup w),
    (w_count_cleanup w), (truthy (page (w_state w))); split; reflexivity.
Qed.

(** A step that changes the limit or the page is a dispatch on a mounted
    hook: it runs no effect. *)
Lemma change_is_dispatch w (ev : Event T) :
  settled w ->
  limit (w_state (step props w ev)) <> limit (w_state w) \/
  page (w_state (step props w ev)) <> page (w_state w) ->
  w_mounted (step props w ev) = true /\
  w_result_deps (step props w ev) = w_result_deps w /\
  w_next (step props w ev) = w_next w.
Proof.
  intros Hs Hchange. unfold step in *.
  destruct (w_mounted w) eqn:Hm; simpl in *; [| exfalso; tauto].
  destruct ev as [| id e | p | | |].
  - rewrite (commit_settled props w Hs) in Hchange. exfalso. tauto.
  - unfold emit in *. destruct (find_subscription id w); auto.
  - destruct (fetchPage props (w_state w) p); auto.
  - destruct (fetchMore props (w_state w)); auto.
  - destruct (resetList props (w_state w)); auto.
  - exfalso. unfold unmount, run_cleanup in Hchange.
    destruct (w_result_cleanup w), (w_count_cleanup w); simpl in *; tauto.
Qed.

(** X17: whenever a step of a settled hook with a valid query changes the
    limit or the page (an accepted [fetchMore], [resetList] or [fetchPage]
    to another page), the next commit replaces the result subscription by
    a fresh one for the query materialized from the new state, and
    [isFetching] is true. *)
Theorem change_resubscribes (evs : list (Event T)) (ev : Event T)
  (q : RxQuery) :
  settled (run props evs) ->
  query props = Some q ->
  limit (w_state (step props (run props evs) ev))
  <> limit (w_state (run props evs)) \/
  page (w_state (step props (run props evs) ev))
  <> page (w_state (run props evs)) ->
  live_ids ResultRole (step props (step props (run props evs) ev) Commit)
  = [w_next (run props evs)] /\
  map sub_query
    (filter (fun x => Role_eqb (sub_role x) ResultRole)
       (w_live (step props (step props (run props evs) ev) Commit)))
  = [materialize props (w_state (step props (run props evs) ev)) q] /\
  isFetching
    (w_state (step props (step props (run props evs) ev) Commit)) = true.
Proof.
  intros Hs Hq Hchange.
  destruct (change_is_dispatch _ ev Hs Hchange) as (Hm & Hdeps & Hnext).
  assert (Hdue : result_due (w_state (step props (run props evs) ev))
                   (step props (run props evs) ev) = true).
  { destruct Hs as [Hr _]. unfold result_due in *. rewrite Hdeps.
    destruct (w_result_deps (run props evs)) as [[l p] |]; trivial.
    apply negb_false_iff, andb_true_iff in Hr. destruct Hr as [Hl Hp].
    apply Z.eqb_eq in Hl. apply value_same_eq in Hp.
    apply negb_true_iff, andb_false_iff.
    destruct Hchange as [Hc | Hc]; [left | right].
    - apply Z.eqb_neq. congruence.
    - destruct (value_same p _) eqn:Hv; trivial.
      apply value_same_eq in Hv. congruence. }
  rewrite <- !run_snoc in *.
  set (evs1 := evs ++ [ev]) in *.
  pose proof (subscriptions_ok_run props (evs1 ++ [Commit])) as [Hh _].
  rewrite run_snoc in Hh. rewrite (run_snoc props evs1 Commit).
  rewrite (step_Commit props _ Hm) in *.
  destruct (commit_due _ q Hq Hdue) as [Hc Hst].
  split; [| split].
  - rewrite (ok_result _ Hh), Hc, Hnext. reflexivity.
  - rewrite <- (step_Commit props _ Hm), <- run_snoc.
    rewrite (result_query_settled props (evs1 ++ [Commit]) q Hq).
    + f_equal. rewrite run_snoc, (step_Commit props _ Hm), Hst.
      now apply materialize_ext.
    + rewrite run_snoc, (step_Commit props _ Hm). apply settled_commit.
  - now rewrite Hst.
Qed.

(** ** A query that is not an [RxQuery] *)

(** X18: with a query that is not an [RxQuery] the hook never subscribes
    and nothing but its callbacks dispatches: the result stays empty,
    [isFetching] stays true and the page count stays 0. *)
Theorem invalid_query_idle (evs : list (Event T)) :
  query props = None ->
  w_live (run props evs) = [] /\
  forallb (fun e => match fst e with FromFacade => true | _ => false end)
    (w_log (run props evs)) = true /\
  result (w_state (run props evs)) = [] /\
  isFetching (w_state (run props evs)) = true /\
  pageCount (w_state (run props evs)) = Int 0.
Proof.
  intro Hq.
  apply (run_invariant props
           (fun w =>
              w_live w = [] /\
              forallb (fun e => match fst e with
                                | FromFacade => true
                                | _ => false
                                end) (w_log w) = true /\
              result (w_state w) = [] /\
              isFetching (w_state w) = true /\
              pageCount (w_state w) = Int 0)).
  - repeat split.
  - intros w ev (Hlive & Hlog & Hres & Hf & Hc). unfold step.
    destruct (w_mounted w); simpl; [| now repeat split].
    destruct ev as [| id e | p | | |].
    + unfold commit, cleanup_phase, result_effect, count_effect, run_cleanup,
        subscribe. rewrite Hq.
      destruct (result_due (w_state w) w), (count_due (w_state w) w),
        (w_result_cleanup w), (w_count_cleanup w),
        (truthy (page (w_state w))); simpl; rewrite ?Hlive; simpl;
        now repeat split.
    + unfold emit, find_subscription. rewrite Hlive. simpl.
      now repeat split.
    + destruct (fetchPage props (w_state w) p) as [a |] eqn:Ha;
        [| now repeat split].
      apply fetchPage_mode in Ha. destruct Ha as (_ & -> & _). simpl.
      now repeat split.
    + destruct (fetchMore props (w_state w)) as [a |] eqn:Ha;
        [| now repeat split].
      apply fetchMore_mode in Ha. destruct Ha as (_ & -> & _). simpl.
      now repeat split.
    + destruct (resetList props (w_state w)) as [a |] eqn:Ha;
        [| now repeat split].
      apply resetList_mode in Ha. destruct Ha as (_ & -> & _). simpl.
      now repeat split.
    + unfold unmount, run_cleanup.
      destruct (w_result_cleanup w), (w_count_cleanup w); simpl;
        rewrite ?Hlive; simpl; now repeat split.
Qed.

(** ** The page count without a page size *)

(** X19: with a page size of 0 (a starting page alone gives such a hook a
    live count subscription) the count callback divides by zero: an
    emission with documents sets [pageCount] to Infinity, an empty one to
    NaN. *)
Theorem count_without_pageSize (evs : list (Event T)) (id : nat)
  (x : Subscription) (e : Emission T) :
  pageSize_ props = 0 ->
  find_subscription id (run props evs) = Some x ->
  sub_role x = CountRole ->
  pageCount (w_state (step props (run props evs) (Emit id e)))
  = if len (normalize e) =? 0 then NaN else PInf.
Proof.
  intros Hps Hfind Hrole.
  pose proof (subscriptions_ok_run props evs) as Hok.
  set (w := run props evs) in *.
  destruct (find_subscription_live _ _ _ Hfind) as (Hin & _ & _).
  assert (Hm : w_mounted w = true).
  { destruct (w_mounted w) eqn:Hm; trivial.
    rewrite (unmounted_no_live props _ Hok Hm) in Hin. contradiction. }
  rewrite (step_Emit props _ _ _ Hm). unfold emit. rewrite Hfind, Hrole.
  simpl. unfold ceil_div. rewrite Hps. simpl.
  fold (len (normalize e)).
  destruct (len (normalize e) =? 0) eqn:Hn; trivial.
  assert ((0 <? len (normalize e)) = true) as ->; trivial.
  apply Z.ltb_lt. apply Z.eqb_neq in Hn. unfold len in *. lia.
Qed.

(** ** [useRxData] and [useRxQuery] without a starting page *)

Lemma limit_zero_mode (evs : list (Event T)) :
  (paginationMode props = InfiniteScroll ->
   limit (w_state (run props evs)) <> 0) /\
  (paginationMode props <> InfiniteScroll ->
   limit (w_state (run props evs)) = 0).
Proof.
  assert (H : (paginationMode props = InfiniteScroll ->
               exists k, limit (w_state (run props evs))
                         = k * pageSize_ props /\ 1 <= k) /\
              (paginationMode props <> InfiniteScroll ->
               limit (w_state (run props evs)) = 0)).
  { revert evs.
    apply (state_invariant props
             (fun s =>
                (paginationMode props = InfiniteScroll ->
                 exists k, limit s = k * pageSize_ props /\ 1 <= k) /\
                (paginationMode props <> InfiniteScroll -> limit s = 0))).
    - unfold initialState. split; intro Hmode.
      + rewrite Hmode. exists 1. cbn [PaginationMode_eqb limit]. lia.
      + apply PaginationMode_eqb_neq in Hmode. now rewrite Hmode.
    - intros s a Ha [Hscroll Hother].
      destruct Ha as [-> | [[e ->] | [[e ->] | [[p Ha] | [Ha | Ha]]]]];
        try (split; assumption).
      + apply fetchPage_mode in Ha. destruct Ha as (_ & -> & _).
        split; assumption.
      + apply fetchMore_mode in Ha. destruct Ha as (Hmode & -> & _).
        split; [intros _ | congruence].
        destruct (Hscroll Hmode) as (k & Hk & Hk1).
        exists (k + 1). cbn [reducer limit]. rewrite Hk. lia.
      + apply resetList_mode in Ha. destruct Ha as (Hmode & -> & _).
        split; [intros _ | congruence].
        exists 1. cbn [reducer limit]. lia. }
  destruct H as [Hscroll Hother]. split; [| exact Hother].
  intro Hmode. destruct (Hscroll Hmode) as (k & -> & Hk).
  pose proof (InfiniteScroll_pageSize props Hmode). nia.
Qed.


End Manager2.

(** ** The comparators *)

Module TestHelpersProperties.

Import TestHelpers.

Lemma ltb_Lt (a b : string) : String.ltb a b = true <-> String.compare a b = Lt.
Proof. unfold String.ltb. destruct (String.compare a b); split; congruence. Qed.

Lemma compare_refl (a : string) : String.compare a a = Eq.
Proof.
  induction a as [| x a IH]; simpl; trivial.
  unfold Ascii.compare. now rewrite N.compare_refl.
Qed.

Lemma compare_Lt_trans (a b c : string) :
  String.compare a b = Lt -> String.compare b c = Lt ->
  String.compare a c = Lt.
Proof.
  revert b c. induction a as [| x a IH]; intros [| y b] [| z c]; simpl;
    try congruence.
  destruct (Ascii.compare x y) eqn:Hxy; try discriminate;
    destruct (Ascii.compare y z) eqn:Hyz; try discriminate; intros Hab Hbc.
  - apply Ascii.compare_eq_iff in Hxy, Hyz. subst.
    unfold Ascii.compare. rewrite N.compare_refl. eauto.
  - apply Ascii.compare_eq_iff in Hxy. subst. now rewrite Hyz.
  - apply Ascii.compare_eq_iff in Hyz. subst. now rewrite Hxy.
  - unfold Ascii.compare in *. rewrite N.compare_lt_iff in *.
    assert (H : (Ascii.N_of_ascii x < Ascii.N_of_ascii z)%N) by lia.
    apply N.compare_lt_iff in H. now rewrite H.
Qed.

(** X21: [sortByNameDesc] is [sortByNameAsc] with its arguments swapped,
    and its negation. *)
Theorem sortByNameDesc_reverses (a b : Character) :
  sortByNameDesc a b = sortByNameAsc b a /\
  sortByNameDesc a b = - sortByNameAsc a b.
Proof.
  unfold sortByNameDesc, sortByNameAsc.
  destruct (String.ltb (name a) (name b)) eqn:Hab,
    (String.ltb (name b) (name a)) eqn:Hba; split; trivial.
  apply ltb_Lt in Hab, Hba. rewrite String.compare_antisym, Hba in Hab.
  discriminate.
Qed.

(** X22: [sortByNameAsc] is a consistent comparator: it is 0 exactly on
    equal names, -1 one way exactly when 1 the other way, and transitive. *)
Theorem sortByNameAsc_consistent (a b c : Character) :
  (sortByNameAsc a b = 0 <-> name a = name b) /\
  (sortByNameAsc a b = -1 <-> sortByNameAsc b a = 1) /\
  (sortByNameAsc a b = -1 -> sortByNameAsc b c = -1 ->
   sortByNameAsc a c = -1).
Proof.
  assert (Hlt : forall x y, String.ltb x y = true <-> String.compare x y = Lt)
    by apply ltb_Lt.
  assert (Hasc : forall u v,
             (sortByNameAsc u v = -1 <-> String.compare (name u) (name v) = Lt)
             /\ (sortByNameAsc u v = 1 <->
                 String.compare (name u) (name v) = Gt)
             /\ (sortByNameAsc u v = 0 <->
                 String.compare (name u) (name v) = Eq)).
  { intros u v. unfold sortByNameAsc, String.ltb.
    rewrite (String.compare_antisym (name v) (name u)).
    destruct (String.compare (name u) (name v)); simpl;
      repeat split; intros; congruence || lia. }
  split; [| split].
  - rewrite (proj2 (proj2 (Hasc a b))). split.
    + apply String.compare_eq_iff.
    + intros ->. apply compare_refl.
  - rewrite (proj1 (Hasc a b)), (proj1 (proj2 (Hasc b a))).
    rewrite (String.compare_antisym (name b) (name a)).
    destruct (String.compare (name a) (name b)); simpl; split; congruence.
  - rewrite (proj1 (Hasc a b)), (proj1 (Hasc b c)), (proj1 (Hasc a c)).
    apply compare_Lt_trans.
Qed.

End TestHelpersProperties.

Section Manager3.

Context {T : Type}.
Variable props : Props.
Implicit Types (s : RxState T) (w : World T).

(** ** The count subscription after a commit *)

(** A count effect that ran with a truthy page on a valid query holds its
    cleanup. *)
Lemma count_cleanup_held (evs : list (Event T)) (p : option num) :
  query props <> None ->
  w_count_deps (run props evs) = Some p -> truthy p = true ->
  w_count_cleanup (run props evs) <> None.
Proof.
  intro Hq. revert p.
  apply (run_invariant props
           (fun w => forall p, w_count_deps w = Some p -> truthy p = true ->
                               w_count_cleanup w <> None)).
  - simpl. congruence.
  - intros w ev Hw. unfold step.
    destruct (w_mounted w); simpl; trivial.
    destruct ev as [| id e | p | | |].
    + unfold commit, cleanup_phase, result_effect, count_effect, run_cleanup,
        subscribe.
      destruct (result_due (w_state w) w), (count_due (w_state w) w),
        (w_result_cleanup w), (w_count_cleanup w) eqn:Hcc, (query props),
        (truthy (page (w_state w))) eqn:Htr; simpl in *; rewrite ?Hcc;
        try assumption; try congruence;
        intros p Hp; injection Hp as <-; congruence.
    + unfold emit. now destruct (find_subscription id w).
    + now destruct (fetchPage props (w_state w) p).
    + now destruct (fetchMore props (w_state w)).
    + now destruct (resetList props (w_state w)).
    + simpl. congruence.
Qed.

(** X24: after every commit of a mounted hook with a valid query, a count
    subscription is live exactly when the page is truthy, whatever the
    mode; it is the only one and observes the base query. *)
Theorem count_subscription_after_commit (evs : list (Event T))
  (q : RxQuery) :
  query props = Some q ->
  w_mounted (run props evs) = true ->
  map sub_query
    (filter (fun x => Role_eqb (sub_role x) CountRole)
       (w_live (step props (run props evs) Commit)))
  = if truthy (page (w_state (step props (run props evs) Commit)))
    then [q] else [].
Proof.
  intros Hq Hm.
  assert (Hset : settled (step props (run props evs) Commit)).
  { rewrite (step_Commit props _ Hm). apply settled_commit. }
  rewrite <- run_snoc in *.
  set (evs1 := evs ++ [Commit]) in *.
  pose proof (subscriptions_ok_run props evs1) as [Hh Hs].
  pose proof (count_cleanup_held evs1) as Hheld.
  set (w := run props evs1) in *.
  destruct Hset as [_ Hc]. unfold count_due in Hc.
  destruct (w_count_deps w) as [p |] eqn:Hd; [| discriminate].
  apply negb_false_iff, value_same_eq in Hc. subst p.
  pose proof (ok_count _ Hh) as Hids.
  destruct (w_count_cleanup w) as [id |] eqn:Hcc.
  - destruct (ok_count_page _ Hh id Hcc) as (p & Hp & Htr).
    assert (p = page (w_state w)) as -> by congruence. rewrite Htr.
    destruct (one_id CountRole (w_live w) id Hids) as (x & Hx & Hin & Hr).
    rewrite Hx. simpl. f_equal.
    pose proof (ok_count_query _ _ Hs x Hin Hr). congruence.
  - destruct (truthy (page (w_state w))) eqn:Htr.
    + exfalso. apply (Hheld (page (w_state w))); trivial. congruence.
    + unfold live_ids in Hids. simpl in Hids.
      apply map_eq_nil in Hids. now rewrite Hids.
Qed.

(** ** The state and the log *)

Lemma step_dispatches w (ev : Event T) :
  (w_state (step props w ev) = w_state w /\
   w_log (step props w ev) = w_log w) \/
  exists o a,
    w_state (step props w ev) = reducer (w_state w) a /\
    w_log (step props w ev) = (o, a) :: w_log w.
Proof.
  unfold step. destruct (w_mounted w); simpl; [| now left].
  destruct ev as [| id e | p | | |].
  - unfold commit, cleanup_phase, result_effect, count_effect, run_cleanup,
      subscribe.
    destruct (result_due (w_state w) w), (count_due (w_state w) w),
      (w_result_cleanup w), (w_count_cleanup w), (query props),
      (truthy (page (w_state w))); simpl;
      first [ left; split; reflexivity
            | right; do 2 eexists; (split; [| reflexivity]); reflexivity ].
  - unfold emit. destruct (find_subscription id w); simpl;
      first [ left; split; reflexivity
            | right; do 2 eexists; (split; [| reflexivity]); reflexivity ].
  - destruct (fetchPage props (w_state w) p); simpl;
      first [ left; split; reflexivity
            | right; do 2 eexists; (split; [| reflexivity]); reflexivity ].
  - destruct (fetchMore props (w_state w)); simpl;
      first [ left; split; reflexivity
            | right; do 2 eexists; (split; [| reflexivity]); reflexivity ].
  - destruct (resetList props (w_state w)); simpl;
      first [ left; split; reflexivity
            | right; do 2 eexists; (split; [| reflexivity]); reflexivity ].
  - left. unfold unmount, run_cleanup.
    destruct (w_result_cleanup w), (w_count_cleanup w); split; reflexivity.
Qed.

(** In every reachable world the state is the replay of the log. *)
Lemma state_replays (evs : list (Event T)) :
  w_state (run props evs)
  = replay (initialState props) (w_log (run props evs)).
Proof.
  apply (run_invariant props
           (fun w => w_state w = replay (initialState props) (w_log w))).
  - reflexivity.
  - intros w ev Hw.
    destruct (step_dispatches w ev) as [[-> ->] | (o & a & -> & ->)].
    + exact Hw.
    + simpl. now rewrite <- Hw.
Qed.


(** X26: [isFetching] is false exactly when the last dispatched action,
    [CountPages] apart, is a [FetchSuccess]: only the arrival of results
    ends a fetch, and a page count never changes the flag. *)
Theorem isFetching_awaits (evs : list (Event T)) :
  isFetching (w_state (run props evs)) = awaiting (w_log (run props evs)).
Proof.
  rewrite state_replays.
  induction (w_log (run props evs)) as [| [o a] log IH]; simpl.
  - reflexivity.
  - destruct a; simpl; trivial.
Qed.

End Manager3.

(** * The further properties at concrete mounts *)

(** A [QueryChanged] keeps the page count, so [fetchPage] is the same
    before and after it. *)
Lemma callbacks_read_their_deps_witness :
  let s1 := w_state (run traditional_5 counted_12) in
  let s2 := reducer s1 QueryChanged in
  pageCount s1 = pageCount s2 /\
  fetchPage traditional_5 s1 3 = fetchPage traditional_5 s2 3.
Proof.
  intros s1 s2. split; [reflexivity |].
  apply (proj1 (callbacks_read_their_deps traditional_5 s1 s2)).
  reflexivity.
Defined.

(** The result effect run before and after the first two documents, which
    change neither the limit nor the page. *)
Lemma effects_read_their_deps_witness :
  let s1 := initialState (T:=string) infinite_2 in
  let s2 := w_state (run infinite_2 first_two) in
  (limit s1 = limit s2 /\ page s1 = page s2) /\
  result_effect infinite_2 s1 (initialWorld infinite_2)
  = result_effect infinite_2 s2 (initialWorld infinite_2).
Proof.
  intros s1 s2. split; [split; reflexivity |].
  apply (proj1 (effects_read_their_deps infinite_2 s1 s2
                  (initialWorld infinite_2))); reflexivity.
Defined.

(** The query of [infinite_2] with a limit of 6, and the query of a hook
    without pagination. *)
Lemma materialize_bounds_witness :
  let s := w_state (run infinite_2 limit_6) in
  (paginationMode infinite_2 = InfiniteScroll /\
   q_limit (materialize infinite_2 s characters) = Some 6) /\
  (paginationMode unpaginated = NoPagination /\
   q_limit (materialize unpaginated (initialState (T:=string) unpaginated)
              characters) = None).
Proof.
  intro s. split; (split; [reflexivity |]).
  - exact (proj2 (proj1 (materialize_bounds infinite_2 s characters)
                    eq_refl)).
  - exact (proj2 (proj2 (materialize_bounds unpaginated
                           (initialState unpaginated) characters)
                    eq_refl)).
Defined.

(** Three documents for a limit of 4 exhaust the list; a reset does not
    bring [fetchMore] back. *)
Lemma exhausted_blocks_fetchMore_witness :
  let s := w_state
             (run infinite_2
                (first_two ++
                 [CallFetchMore; Commit;
                  Emit 2%nat (Documents ["A"; "B"; "C"]%string)])) in
  isExhausted s = true /\
  forallb (fun a : AnyAction string => negb (is_FetchSuccess a))
    [Reset 2; QueryChanged] = true /\
  fetchMore infinite_2 (fold_left reducer [Reset 2; QueryChanged] s) = None.
Proof.
  intro s. split; [reflexivity |]. split; [reflexivity |].
  apply (exhausted_blocks_fetchMore infinite_2 s [Reset 2; QueryChanged]);
    reflexivity.
Defined.

(** A [FetchMore] on the state after the first two documents. *)
Lemma reducer_extends_useRxData_witness :
  let s := w_state (run infinite_2 first_two) in
  forget_action (T:=string) (FetchMore 2) = Some (UseRxData.FetchMore 2) /\
  forget (reducer s (FetchMore 2))
  = UseRxData.reducer (forget s) (UseRxData.FetchMore 2).
Proof.
  intro s. split; [reflexivity |].
  apply (proj1 (reducer_extends_useRxData s (FetchMore 2))). reflexivity.
Defined.

(** After two [fetchMore] the hook of [infinite_2] is on a page [p] with a
    limit of [k] pages. *)
Lemma InfiniteScroll_limit_and_page_witness :
  paginationMode infinite_2 = InfiniteScroll /\
  exists p k,
    page (w_state (run infinite_2 limit_6)) = Some (Int p) /\
    limit (w_state (run infinite_2 limit_6)) = k * pageSize_ infinite_2 /\
    1 <= k <= p.
Proof.
  split; [reflexivity |].
  apply (InfiniteScroll_limit_and_page infinite_2 limit_6). reflexivity.
Defined.

(** In [Traditional] mode the limit is 0. *)
Lemma unlimited_is_exhausted_witness :
  paginationMode traditional_5 <> InfiniteScroll /\
  limit (w_state (run traditional_5 counted_12)) = 0.
Proof.
  assert (H : paginationMode traditional_5 <> InfiniteScroll)
    by discriminate.
  split; [exact H |].
  exact (proj1 (unlimited_is_exhausted traditional_5 counted_12 H)).
Defined.

(** Pages of 5. *)
Lemma pageCount_natural_witness :
  1 <= pageSize_ traditional_5 /\
  exists c,
    pageCount (w_state (run traditional_5 counted_12)) = Int c /\ 0 <= c.
Proof.
  assert (H : 1 <= pageSize_ traditional_5)
    by (unfold pageSize_; simpl; lia).
  split; [exact H |].
  exact (pageCount_natural traditional_5 counted_12 H).
Defined.

(** The result subscription of [traditional_5] after a commit. *)
Lemma result_subscription_in_sync_witness :
  query traditional_5 = Some characters /\
  w_mounted (run traditional_5 counted_12) = true /\
  map sub_query
    (filter (fun x => Role_eqb (sub_role x) ResultRole)
       (w_live (step traditional_5 (run traditional_5 counted_12) Commit)))
  = [materialize traditional_5
       (w_state (step traditional_5 (run traditional_5 counted_12) Commit))
       characters].
Proof.
  split; [reflexivity |]. split; [reflexivity |].
  apply (result_subscription_in_sync traditional_5 counted_12 characters);
    reflexivity.
Defined.

(** [fetchPage(1)] on page 1 of 3. *)
Lemma fetchPage_same_page_witness :
  let w := run traditional_5 counted_12 in
  (w_mounted w = true /\ settled w /\ page (w_state w) = Some (Int 1) /\
   fetchPage traditional_5 (w_state w) 1 = Some (FetchPage 1)) /\
  step traditional_5 (step traditional_5 w (CallFetchPage 1)) Commit
  = step traditional_5 w (CallFetchPage 1) /\
  isFetching (w_state (step traditional_5 w (CallFetchPage 1))) = true.
Proof.
  intro w.
  assert (Hs : settled w) by (split; reflexivity).
  split; [repeat split; try exact (proj1 Hs); exact (proj2 Hs) |].
  destruct (fetchPage_same_page traditional_5 w 1 (FetchPage 1)
              eq_refl Hs eq_refl eq_refl) as (Hc & _ & Hf & _).
  split; [exact Hc | exact Hf].
Defined.

(** [fetchMore] after the first two documents of [infinite_2]. *)
Lemma change_resubscribes_witness :
  let w := run infinite_2 first_two in
  (settled w /\ query infinite_2 = Some characters /\
   limit (w_state (step infinite_2 w CallFetchMore)) <> limit (w_state w)) /\
  live_ids ResultRole
    (step infinite_2 (step infinite_2 w CallFetchMore) Commit)
  = [w_next w] /\
  map sub_query
    (filter (fun x => Role_eqb (sub_role x) ResultRole)
       (w_live (step infinite_2 (step infinite_2 w CallFetchMore) Commit)))
  = [limit_ 4 characters].
Proof.
  intro w.
  assert (Hs : settled w) by (split; reflexivity).
  assert (Hl : limit (w_state (step infinite_2 w CallFetchMore))
               <> limit (w_state w)) by discriminate.
  split; [split; [exact Hs | split; [reflexivity | exact Hl]] |].
  destruct (change_resubscribes infinite_2 first_two CallFetchMore characters
              Hs eq_refl (or_introl Hl)) as (Hids & Hq & _).
  split; [exact Hids | exact Hq].
Defined.

(** A hook on no query, committed and asked for more. *)
Lemma invalid_query_idle_witness :
  query no_query = None /\
  w_live (T:=string) (run no_query [Commit; CallFetchMore]) = [] /\
  isFetching (w_state (T:=string) (run no_query [Commit; CallFetchMore]))
  = true.
Proof.
  split; [reflexivity |].
  destruct (invalid_query_idle (T:=string) no_query [Commit; CallFetchMore]
              eq_refl) as (Hlive & _ & _ & Hf & _).
  split; [exact Hlive | exact Hf].
Defined.

(** A starting page without a page size: one document gives an infinite
    page count. *)
Lemma count_without_pageSize_witness :
  pageSize_ starting_page_only = 0 /\
  find_subscription (T:=string) 1 (run starting_page_only [Commit])
  = Some (mkSubscription 1 CountRole characters) /\
  pageCount
    (w_state
       (step starting_page_only (run starting_page_only [Commit])
          (Emit 1%nat (Documents ["a"]%string))))
  = PInf.
Proof.
  split; [reflexivity |]. split; [reflexivity |].
  apply (count_without_pageSize starting_page_only [Commit] 1%nat
           (mkSubscription 1 CountRole characters)
           (Documents ["a"]%string)); reflexivity.
Defined.


(** Leia before Luke before Yoda. *)
Lemma sortByNameAsc_consistent_witness :
  (TestHelpers.sortByNameAsc leia luke = -1 /\
   TestHelpers.sortByNameAsc luke yoda = -1) /\
  TestHelpers.sortByNameAsc leia yoda = -1.
Proof.
  split; [split; reflexivity |].
  apply (proj2 (proj2 (TestHelpersProperties.sortByNameAsc_consistent
                         leia luke yoda))); reflexivity.
Defined.


(** The count subscription of [infinite_2] after its first commit. *)
Lemma count_subscription_after_commit_witness :
  query infinite_2 = Some characters /\
  w_mounted (T:=string) (run infinite_2 []) = true /\
  map sub_query
    (filter (fun x => Role_eqb (sub_role x) CountRole)
       (w_live (T:=string) (step infinite_2 (run infinite_2 []) Commit)))
  = [characters].
Proof.
  split; [reflexivity |]. split; [reflexivity |].
  exact (count_subscription_after_commit (T:=string) infinite_2 []
           characters eq_refl eq_refl).
Defined.
